(** * SaaS backend (clients and invoices): the handlers of [main.py] and the
    schemas of [schemas.py], embedded with explicit state passing.

    - Python [str] is a list of code points, so [len] is [length].
    - A document ([Dict[str, Any]]) is a finite map from field names to values.
    - Handlers run in a state-and-exception monad over the state of the
      process (the document store and the environment).
    - The module [database] (imported by [main.py]) is an interface, with one
      instance written from the specification of the persistence accessor. *)

From Stdlib Require Import ZArith NArith QArith Lia List.
From Stdlib.Strings Require Import Ascii String Byte.
From stdpp Require Import base option list gmap.

Local Open Scope Z_scope.
Set Warnings "-register-all".

(** ** Python strings *)

Abbreviation codepoint := N (only parsing).
Abbreviation str := (list N) (only parsing).

(** An ASCII literal of the source, as code points. *)
Definition lit (s : string) : str :=
  List.map N_of_ascii (list_ascii_of_string s).

(** [s[:n]] for [n >= 0]. *)
Definition str_prefix (n : nat) (s : str) : str := take n s.

(** [bool(s)] for a string: non-empty. *)
Definition str_truthy (s : str) : bool :=
  match s with [] => false | _ => true end.

(** [bool(o)] for an [Optional[str]]: neither [None] nor empty. *)
Definition opt_truthy (o : option str) : bool :=
  match o with Some s => str_truthy s | None => false end.

(** Decimal digits of a natural number, ["%d" % n]. *)
Fixpoint uint_digits (u : Decimal.uint) : str :=
  match u with
  | Decimal.Nil => []
  | Decimal.D0 u => 48%N :: uint_digits u
  | Decimal.D1 u => 49%N :: uint_digits u
  | Decimal.D2 u => 50%N :: uint_digits u
  | Decimal.D3 u => 51%N :: uint_digits u
  | Decimal.D4 u => 52%N :: uint_digits u
  | Decimal.D5 u => 53%N :: uint_digits u
  | Decimal.D6 u => 54%N :: uint_digits u
  | Decimal.D7 u => 55%N :: uint_digits u
  | Decimal.D8 u => 56%N :: uint_digits u
  | Decimal.D9 u => 57%N :: uint_digits u
  end.

Definition str_of_N (n : N) : str := uint_digits (N.to_uint n).

(** ["%0wd" % n]: zero padding on the left up to width [w]. *)
Definition zfill (w : nat) (n : N) : str :=
  let d := str_of_N n in
  replicate (w - length d)%nat 48%N ++ d.

(** ** Generated identifiers: [bson.ObjectId] *)

Inductive ObjectId := Oid (binary : list byte).

Definition binary (o : ObjectId) : list byte := let 'Oid b := o in b.

Definition hexdigit (n : N) : codepoint :=
  if (n <? 10)%N then (48 + n)%N else (87 + n)%N.

Definition hexlify (b : byte) : str :=
  let n := Byte.to_N b in [hexdigit (n / 16)%N; hexdigit (n mod 16)%N].

(** [str(oid)]: the 2 lower-case hexadecimal digits of each byte. *)
Definition ObjectId_str (o : ObjectId) : str :=
  concat (List.map hexlify (binary o)).

Definition hexval (c : codepoint) : option N :=
  if ((48 <=? c) && (c <=? 57))%N then Some (c - 48)%N
  else if ((97 <=? c) && (c <=? 102))%N then Some (c - 87)%N
  else if ((65 <=? c) && (c <=? 70))%N then Some (c - 55)%N
  else None.

(** ASCII white space, which [bytes.fromhex] skips between two bytes. *)
Definition is_space (c : codepoint) : bool :=
  ((c =? 32) || ((9 <=? c) && (c <=? 13)))%N.

(** [bytes.fromhex(s)]; [None] stands for [ValueError]. *)
Fixpoint fromhex (s : str) : option (list byte) :=
  match s with
  | [] => Some []
  | c :: r =>
      if is_space c then fromhex r
      else match r with
           | [] => None
           | d :: r' =>
               match hexval c, hexval d with
               | Some h, Some l =>
                   match Byte.of_N (16 * h + l), fromhex r' with
                   | Some b, Some bs => Some (b :: bs)
                   | _, _ => None
                   end
               | _, _ => None
               end
           end
  end.

(** ** Timestamps: [datetime.datetime] *)

Record datetime := {
  year : N; month : N; day : N;
  hour : N; minute : N; second : N; microsecond : N;
  utcoffset : option Z          (* microseconds east of UTC, when aware *)
}.

Definition format_offset (off : Z) : str :=
  let sign := if off <? 0 then lit "-" else lit "+" in
  let a := Z.to_N (Z.abs off) in
  let hh := (a / 3600000000)%N in
  let r := (a mod 3600000000)%N in
  let mm := (r / 60000000)%N in
  let ss := (r mod 60000000)%N in
  sign ++ zfill 2 hh ++ lit ":" ++ zfill 2 mm
  ++ (if (ss =? 0)%N then []
      else lit ":" ++ zfill 2 (ss / 1000000)%N
           ++ (if (ss mod 1000000 =? 0)%N then []
               else lit "." ++ zfill 6 (ss mod 1000000)%N)).

(** [t.isoformat()], with the default separator and [timespec]. *)
Definition isoformat (t : datetime) : str :=
  zfill 4 (year t) ++ lit "-" ++ zfill 2 (month t) ++ lit "-" ++ zfill 2 (day t)
  ++ lit "T"
  ++ zfill 2 (hour t) ++ lit ":" ++ zfill 2 (minute t) ++ lit ":" ++ zfill 2 (second t)
  ++ (if (microsecond t =? 0)%N then [] else lit "." ++ zfill 6 (microsecond t))
  ++ match utcoffset t with Some off => format_offset off | None => [] end.

(** ** Python values and documents *)

Inductive value :=
| VNone
| VBool (b : bool)
| VInt (n : Z)
| VFloat (x : Q)
| VStr (s : str)
| VList (l : list value)
| VDict (d : list (str * value))
| VObjectId (o : ObjectId)
| VDatetime (t : datetime).

(** A record of a collection, [Dict[str, Any]]. *)
Abbreviation doc := (gmap (list N) value) (only parsing).

(** ** [_serialize_doc] *)

(** The three branches of the loop body of [_serialize_doc]. *)
Definition json_safe (v : value) : value :=
  match v with
  | VObjectId o => VStr (ObjectId_str o)
  | VDatetime t => VStr (isoformat t)
  | _ => v
  end.

Definition _serialize_doc (d : doc) : doc :=
  map_fold (fun k v out => <[k := json_safe v]> out) ∅ d.


(** [bool(d)] for a dict: non-empty. *)
Definition doc_truthy (d : doc) : bool := negb (size d =? 0)%nat.

(** The filter [{"_id": oid}]. *)
Definition by_id (o : ObjectId) : doc := {[ lit "_id" := VObjectId o ]}.

(** ** Exceptions and the handler monad *)

(** An exception of the storage driver or of the interpreter: its class name
    and [str(e)]. *)
Record pyerror := PyError { exn_class : str; exn_str : str }.

(** What a route handler can raise. *)
Inductive exn :=
| HTTPException (status_code : Z) (detail : str)
| InvalidId (oid : str)                   (* bson.errors.InvalidId *)
| Unhandled (e : pyerror).

Inductive result (E A : Type) :=
| Return (a : A)
| Raise (e : E).
Arguments Return {E A} a.
Arguments Raise {E A} e.

(** Computations over a state [S] that return or raise. *)
Definition M (E S A : Type) : Type := S -> result E A * S.

Definition ret {E S A} (a : A) : M E S A := fun s => (Return a, s).

Definition raise {E S A} (e : E) : M E S A := fun s => (Raise e, s).

Definition bind {E S A B} (m : M E S A) (k : A -> M E S B) : M E S B :=
  fun s => match m s with
           | (Return a, s') => k a s'
           | (Raise e, s') => (Raise e, s')
           end.

(** [try: m except Exception as e: h e]; what [m] did to the state stays. *)
Definition try_except {E S A} (m : M E S A) (h : E -> M E S A) : M E S A :=
  fun s => match m s with
           | (Return a, s') => (Return a, s')
           | (Raise e, s') => h e s'
           end.

(** A pure step that returns or raises. *)
Definition now {E S A} (r : result E A) : M E S A := fun s => (r, s).

(** An exception of the lower layer, re-raised through the handler. *)
Definition propagate {S A} (m : M pyerror S A) : M exn S A :=
  fun s => match m s with
           | (Return a, s') => (Return a, s')
           | (Raise e, s') => (Raise (Unhandled e), s')
           end.

Declare Scope monad_scope.
Delimit Scope monad_scope with monad.
Notation "x <- m ;; k" := (bind m (fun x => k))
  (at level 100, m at next level, right associativity) : monad_scope.
Notation "m ;;; k" := (bind m (fun _ => k))
  (at level 100, right associativity) : monad_scope.

(** [ObjectId(s)] for a string [s]. *)
Definition ObjectId_new (s : str) : result exn ObjectId :=
  if (length s =? 24)%nat then
    match fromhex s with
    | Some b => Return (Oid b)
    | None => Raise (InvalidId s)
    end
  else Raise (InvalidId s).

(** ** The schemas of [schemas.py] *)

Module Client.
Inductive status_t := active | inactive | prospect.

Definition status_str (x : status_t) : str :=
    match x with
    | active => lit "active"
    | inactive => lit "inactive"
    | prospect => lit "prospect"
    end.

Record t := {
    name : str;
    email : option str;
    phone : option str;
    company : option str;
    address : option str;
    notes : option str;
    status : status_t
  }.
End Client.

Module InvoiceItem.
Record t := {
    description : str;
    quantity : Q;
    unit_price : Q
  }.
End InvoiceItem.

Module Invoice.
Inductive currency_t := USD | EUR | GBP | INR | JPY | AUD | CAD.
Inductive status_t := draft | sent | paid | overdue | cancelled.

Definition currency_str (x : currency_t) : str :=
    match x with
    | USD => lit "USD" | EUR => lit "EUR" | GBP => lit "GBP" | INR => lit "INR"
    | JPY => lit "JPY" | AUD => lit "AUD" | CAD => lit "CAD"
    end.

Definition status_str (x : status_t) : str :=
    match x with
    | draft => lit "draft" | sent => lit "sent" | paid => lit "paid"
    | overdue => lit "overdue" | cancelled => lit "cancelled"
    end.

Record t := {
    invoice_number : option str;
    client_id : option str;
    issue_date : option str;
    due_date : option str;
    items : list InvoiceItem.t;
    currency : currency_t;
    status : status_t;
    notes : option str;
    terms : option str
  }.
End Invoice.

(** The model classes the routes use, and [cls.__name__]. *)
Inductive model_cls := Client_cls | Invoice_cls.

Definition __name__ (c : model_cls) : str :=
  match c with
  | Client_cls => lit "Client"
  | Invoice_cls => lit "Invoice"
  end.

(** An instance of a model. *)
Inductive BaseModel :=
| ClientModel (c : Client.t)
| InvoiceModel (i : Invoice.t).

(** [str.lower] on the ASCII letters. *)
Definition lower (s : str) : str :=
  List.map (fun c => if ((65 <=? c) && (c <=? 90))%N then (c + 32)%N else c) s.

Definition _collection_name (c : model_cls) : str := lower (__name__ c).

Definition opt_value (o : option str) : value :=
  match o with Some s => VStr s | None => VNone end.

Definition item_dump (i : InvoiceItem.t) : value :=
  VDict [ (lit "description", VStr (InvoiceItem.description i));
          (lit "quantity", VFloat (InvoiceItem.quantity i));
          (lit "unit_price", VFloat (InvoiceItem.unit_price i)) ].

(** [payload.model_dump()]. *)
Definition model_dump (m : BaseModel) : doc :=
  match m with
  | ClientModel c =>
      <[lit "name" := VStr (Client.name c)]>
      (<[lit "email" := opt_value (Client.email c)]>
      (<[lit "phone" := opt_value (Client.phone c)]>
      (<[lit "company" := opt_value (Client.company c)]>
      (<[lit "address" := opt_value (Client.address c)]>
      (<[lit "notes" := opt_value (Client.notes c)]>
      (<[lit "status" := VStr (Client.status_str (Client.status c))]> ∅))))))
  | InvoiceModel i =>
      <[lit "invoice_number" := opt_value (Invoice.invoice_number i)]>
      (<[lit "client_id" := opt_value (Invoice.client_id i)]>
      (<[lit "issue_date" := opt_value (Invoice.issue_date i)]>
      (<[lit "due_date" := opt_value (Invoice.due_date i)]>
      (<[lit "items" := VList (List.map item_dump (Invoice.items i))]>
      (<[lit "currency" := VStr (Invoice.currency_str (Invoice.currency i))]>
      (<[lit "status" := VStr (Invoice.status_str (Invoice.status i))]>
      (<[lit "notes" := opt_value (Invoice.notes i)]>
      (<[lit "terms" := opt_value (Invoice.terms i)]> ∅))))))))
  end.

(** ** Request validation (pydantic, driven by the field declarations) *)

(** One entry of a validation error: the field and the kind of failure. *)
Record verr := VErr { loc : str; kind : str }.

(** [d.get(k)] on the items of a dict. *)
Fixpoint dict_get (k : str) (d : list (str * value)) : option value :=
  match d with
  | [] => None
  | (k', v) :: r => if decide (k' = k) then Some v else dict_get k r
  end.

Definition errors_of {A} (r : result (list verr) A) : list verr :=
  match r with Return _ => [] | Raise e => e end.

Section Validation.
  (** [email_validator.validate_email]: the normalised address, or [None]
      when the syntax is rejected. *)
Variable validate_email : str -> option str.

  (** [str = Field(..., min_length=lo, max_length=hi)]. *)
Definition required_str (field : str) (lo hi : nat) (v : option value)
    : result (list verr) str :=
    match v with
    | None => Raise [VErr field (lit "missing")]
    | Some (VStr s) =>
        if (length s <? lo)%nat then Raise [VErr field (lit "string_too_short")]
        else if (hi <? length s)%nat then Raise [VErr field (lit "string_too_long")]
        else Return s
    | Some _ => Raise [VErr field (lit "string_type")]
    end.

  (** [Optional[str] = Field(None)]. *)
Definition optional_str (field : str) (v : option value)
    : result (list verr) (option str) :=
    match v with
    | None | Some VNone => Return None
    | Some (VStr s) => Return (Some s)
    | Some _ => Raise [VErr field (lit "string_type")]
    end.

  (** [Optional[EmailStr] = Field(None)]. *)
Definition optional_email (field : str) (v : option value)
    : result (list verr) (option str) :=
    match v with
    | None | Some VNone => Return None
    | Some (VStr s) =>
        match validate_email s with
        | Some s' => Return (Some s')
        | None => Raise [VErr field (lit "value_error")]
        end
    | Some _ => Raise [VErr field (lit "string_type")]
    end.

  (** [Literal["active", "inactive", "prospect"] = Field("active")]. *)
Definition client_status (field : str) (v : option value)
    : result (list verr) Client.status_t :=
    match v with
    | None => Return Client.active
    | Some (VStr s) =>
        if decide (s = lit "active") then Return Client.active
        else if decide (s = lit "inactive") then Return Client.inactive
        else if decide (s = lit "prospect") then Return Client.prospect
        else Raise [VErr field (lit "literal_error")]
    | Some _ => Raise [VErr field (lit "literal_error")]
    end.

  (** Validation of a request body against [Client]: every field is checked
      and the failures are reported together; unknown keys are ignored. *)
Definition validate_Client (body : value) : result (list verr) Client.t :=
    match body with
    | VDict d =>
        let name := required_str (lit "name") 2 120 (dict_get (lit "name") d) in
        let email := optional_email (lit "email") (dict_get (lit "email") d) in
        let phone := optional_str (lit "phone") (dict_get (lit "phone") d) in
        let company := optional_str (lit "company") (dict_get (lit "company") d) in
        let address := optional_str (lit "address") (dict_get (lit "address") d) in
        let notes := optional_str (lit "notes") (dict_get (lit "notes") d) in
        let status := client_status (lit "status") (dict_get (lit "status") d) in
        match name, email, phone, company, address, notes, status with
        | Return n, Return e, Return p, Return c, Return a, Return o, Return st =>
            Return {| Client.name := n; Client.email := e; Client.phone := p;
                      Client.company := c; Client.address := a;
                      Client.notes := o; Client.status := st |}
        | _, _, _, _, _, _, _ =>
            Raise (errors_of name ++ errors_of email ++ errors_of phone
                   ++ errors_of company ++ errors_of address ++ errors_of notes
                   ++ errors_of status)
        end
    | _ => Raise [VErr [] (lit "model_attributes_type")]
    end.

  (** [limit: int = Query(50, ge=1, le=200)]. *)
Definition validate_limit (limit : option Z) : result (list verr) Z :=
    match limit with
    | None => Return 50
    | Some n =>
        if n <? 1 then Raise [VErr (lit "limit") (lit "greater_than_equal")]
        else if 200 <? n then Raise [VErr (lit "limit") (lit "less_than_equal")]
        else Return n
    end.
End Validation.

(** ** What [main.py] imports: [database] and [os] *)

(** The names [main.py] takes from the module [database] ([create_document],
    [get_documents], the handle [db] and what is called on it) and from [os],
    over the state [S] of the process. *)
Class Runtime (S : Type) := {
  (** [os.getenv(k)] *)
  getenv : str -> S -> option str;
  (** [db is not None] *)
  db_is_not_None : S -> bool;
  (** [hasattr(db, "name")] *)
  db_hasattr_name : M pyerror S bool;
  (** [db.name] *)
  db_name : M pyerror S value;
  (** [db.list_collection_names()] *)
  list_collection_names : M pyerror S (list str);
  (** the type of [db[name]] *)
  Collection : Type;
  (** [db[name]] *)
  db_getitem : str -> M pyerror S Collection;
  (** [coll.find_one(filter)] *)
  find_one : Collection -> doc -> M pyerror S (option doc);
  (** [create_document(collection_name, data)] *)
  create_document : str -> BaseModel -> M pyerror S str;
  (** [get_documents(collection_name, filter_dict, limit)] *)
  get_documents : str -> doc -> Z -> M pyerror S (list doc)
}.

(** ** The route handlers of [main.py] *)

Definition CHECK_MARK : str := [9989%N].             (* U+2705 *)
Definition CROSS_MARK : str := [10060%N].            (* U+274C *)
Definition WARNING_SIGN : str := [9888%N; 65039%N].  (* U+26A0 U+FE0F *)

Section Handlers.
Context {S : Type} {R : Runtime S}.
Local Open Scope monad_scope.

Definition read_root : M exn S doc :=
    ret {[ lit "message" := VStr (lit "Hello from FastAPI Backend!") ]}.

Definition health : M exn S doc :=
    ret {[ lit "status" := VStr (lit "ok") ]}.

  (** The local dict [response] of [test_database] is mutated in place: it is
      part of the state while the body runs. *)
Definition setitem (k : str) (v : value) : M pyerror (doc * S) unit :=
    fun '(r, s) => (Return tt, (<[k := v]> r, s)).

Definition call {A} (m : M pyerror S A) : M pyerror (doc * S) A :=
    fun '(r, s) => let '(x, s') := m s in (x, (r, s')).

Definition read {A} (f : S -> A) : M pyerror (doc * S) A :=
    fun '(r, s) => (Return (f s), (r, s)).

Definition test_database : M exn S doc := fun s =>
    let response : doc :=
      <[lit "backend" := VStr (CHECK_MARK ++ lit " Running")]>
      (<[lit "database" := VStr (CROSS_MARK ++ lit " Not Available")]>
      (<[lit "database_url" := VNone]>
      (<[lit "database_name" := VNone]>
      (<[lit "connection_status" := VStr (lit "Not Connected")]>
      (<[lit "collections" := VList []]> ∅))))) in
    let body : M pyerror (doc * S) unit :=
      try_except
        (connected <- read db_is_not_None ;;
         if connected : bool then
           setitem (lit "database") (VStr (CHECK_MARK ++ lit " Available")) ;;;
           url <- read (getenv (lit "DATABASE_URL")) ;;
           setitem (lit "database_url")
             (VStr (if opt_truthy url then CHECK_MARK ++ lit " Set"
                    else CROSS_MARK ++ lit " Not Set")) ;;;
           has_name <- call db_hasattr_name ;;
           name <- (if has_name : bool then call db_name
                    else ret (VStr (CHECK_MARK ++ lit " Connected"))) ;;
           setitem (lit "database_name") name ;;;
           setitem (lit "connection_status") (VStr (lit "Connected")) ;;;
           try_except
             (collections <- call list_collection_names ;;
              setitem (lit "collections") (VList (List.map VStr (take 10 collections))) ;;;
              setitem (lit "database") (VStr (CHECK_MARK ++ lit " Connected & Working")))
             (fun e =>
                setitem (lit "database")
                  (VStr (WARNING_SIGN ++ lit "  Connected but Error: "
                         ++ str_prefix 80 (exn_str e))))
         else
           setitem (lit "database")
             (VStr (WARNING_SIGN ++ lit "  Available but not initialized")))
        (fun e =>
           setitem (lit "database")
             (VStr (CROSS_MARK ++ lit " Error: " ++ str_prefix 80 (exn_str e))))
    in
    match body (response, s) with
    | (Return _, (r, s')) => (Return r, s')
    | (Raise e, (_, s')) => (Raise (Unhandled e), s')
    end.

Definition list_clients (limit : Z) : M exn S (list doc) :=
    docs <- propagate (get_documents (_collection_name Client_cls) ∅ limit) ;;
    ret (List.map _serialize_doc docs).

  (** [_serialize_doc(doc) if doc else {"_id": inserted_id}]. *)
Definition enriched (found : option doc) (inserted_id : str) : doc :=
    match found with
    | Some d => if doc_truthy d then _serialize_doc d
                else {[ lit "_id" := VStr inserted_id ]}
    | None => {[ lit "_id" := VStr inserted_id ]}
    end.

Definition create_client (payload : Client.t) : M exn S doc :=
    inserted_id <- propagate (create_document (_collection_name Client_cls)
                                              (ClientModel payload)) ;;
    coll <- propagate (db_getitem (_collection_name Client_cls)) ;;
    oid <- now (ObjectId_new inserted_id) ;;
    found <- propagate (find_one coll (by_id oid)) ;;
    ret (enriched found inserted_id).

Definition list_invoices (status client_id : option str) (limit : Z)
    : M exn S (list doc) :=
    let filt : doc := ∅ in
    let filt := match status with
                | Some st => if str_truthy st then <[lit "status" := VStr st]> filt else filt
                | None => filt
                end in
    let filt := match client_id with
                | Some c => if str_truthy c then <[lit "client_id" := VStr c]> filt else filt
                | None => filt
                end in
    docs <- propagate (get_documents (_collection_name Invoice_cls) filt limit) ;;
    ret (List.map _serialize_doc docs).

Definition create_invoice (payload : Invoice.t) : M exn S doc :=
    match Invoice.client_id payload with
    | Some cid =>
        if str_truthy cid then
          client <- (if (length cid =? 24)%nat then
                       coll <- propagate (db_getitem (_collection_name Client_cls)) ;;
                       oid <- now (ObjectId_new cid) ;;
                       propagate (find_one coll (by_id oid))
                     else ret None) ;;
          match client with
          | None => raise (HTTPException 400 (lit "Invalid client_id"))
          | Some _ => ret tt
          end
        else ret tt
    | None => ret tt
    end ;;;
    inserted_id <- propagate (create_document (_collection_name Invoice_cls)
                                              (InvoiceModel payload)) ;;
    coll <- propagate (db_getitem (_collection_name Invoice_cls)) ;;
    oid <- now (ObjectId_new inserted_id) ;;
    found <- propagate (find_one coll (by_id oid)) ;;
    ret (enriched found inserted_id).

  (** The listing under a given exact-match filter: the last two lines of
      [list_invoices]. *)
Definition invoices_matching (filt : doc) (limit : Z) : M exn S (list doc) :=
    docs <- propagate (get_documents (_collection_name Invoice_cls) filt limit) ;;
    ret (List.map _serialize_doc docs).

  (** The last four lines of [create_client] and of [create_invoice]: insert,
      fetch the record again under its new identifier, serialize. *)
Definition insert_and_fetch (cls : model_cls) (data : BaseModel) : M exn S doc :=
    inserted_id <- propagate (create_document (_collection_name cls) data) ;;
    coll <- propagate (db_getitem (_collection_name cls)) ;;
    oid <- now (ObjectId_new inserted_id) ;;
    found <- propagate (find_one coll (by_id oid)) ;;
    ret (enriched found inserted_id).
End Handlers.

(** ** Routing: the decorators of [main.py] *)

Inductive method := GET | POST.

Inductive endpoint :=
| ep_read_root | ep_health | ep_test_database | ep_get_schemas
| ep_list_clients | ep_create_client | ep_list_invoices | ep_create_invoice.

(** The routes in the order they are registered. *)
Definition routes : list (method * str * endpoint) :=
  [ (GET, lit "/", ep_read_root);
    (GET, lit "/api/health", ep_health);
    (GET, lit "/test", ep_test_database);
    (GET, lit "/schema", ep_get_schemas);
    (GET, lit "/clients", ep_list_clients);
    (POST, lit "/clients", ep_create_client);
    (GET, lit "/invoices", ep_list_invoices);
    (POST, lit "/invoices", ep_create_invoice) ].

Definition method_eqb (a b : method) : bool :=
  match a, b with GET, GET | POST, POST => true | _, _ => false end.

(** The first route whose method and path are those of the request. *)
Fixpoint lookup_route (rs : list (method * str * endpoint)) (m : method) (path : str)
  : option endpoint :=
  match rs with
  | [] => None
  | (m', p', ep) :: rest =>
      if method_eqb m' m && bool_decide (p' = path) then Some ep
      else lookup_route rest m path
  end.

Definition route (m : method) (path : str) : option endpoint :=
  lookup_route routes m path.

(** Some route has this path (under another method). *)
Definition path_known (path : str) : bool :=
  existsb (fun '(_, p', _) => bool_decide (p' = path)) routes.

(** A request: the query parameters the routes declare arrive decoded
    ([limit] is an integer already), the body as the parsed JSON value. *)
Record request := {
  req_method : method;
  req_path : str;
  req_limit : option Z;
  req_status : option str;
  req_client_id : option str;
  req_body : option value
}.

Inductive content :=
| JDoc (d : doc)
| JDocs (l : list doc)
| Detail (d : str)                        (* {"detail": d} *)
| ValidationErrors (errors : list verr)   (* {"detail": [...]} *)
| InternalServerError.

Record reply := Reply { status_code : Z; body : content }.

(** The reply for what a handler returned or raised. *)
Definition reply_of {A} (ok : Z) (inj : A -> content) (r : result exn A) : reply :=
  match r with
  | Return a => Reply ok (inj a)
  | Raise (HTTPException c d) => Reply c (Detail d)
  | Raise _ => Reply 500 InternalServerError
  end.

Section Server.
Context {S : Type} {R : Runtime S}.
  (** [email_validator.validate_email]. *)
Variable validate_email : str -> option str.
  (** Validation of a request body against [Invoice]. *)
Variable validate_Invoice : value -> result (list verr) Invoice.t.
  (** [cls.model_json_schema()]. *)
Variable model_json_schema : model_cls -> value.

Definition get_schemas : M exn S doc :=
    ret (<[lit "client" := model_json_schema Client_cls]>
         (<[lit "invoice" := model_json_schema Invoice_cls]> ∅)).

Definition run {A} (ok : Z) (inj : A -> content) (h : M exn S A) (s : S) : reply * S :=
    let '(r, s') := h s in (reply_of ok inj r, s').

Definition unprocessable (errors : list verr) (s : S) : reply * S :=
    (Reply 422 (ValidationErrors errors), s).

Definition parse_body {A} (v : value -> result (list verr) A) (b : option value)
    : result (list verr) A :=
    match b with
    | Some j => v j
    | None => Raise [VErr (lit "body") (lit "missing")]
    end.

  (** What the application answers to a request. *)
Definition serve (r : request) (s : S) : reply * S :=
    match route (req_method r) (req_path r) with
    | None =>
        if path_known (req_path r)
        then (Reply 405 (Detail (lit "Method Not Allowed")), s)
        else (Reply 404 (Detail (lit "Not Found")), s)
    | Some ep_read_root => run 200 JDoc read_root s
    | Some ep_health => run 200 JDoc health s
    | Some ep_test_database => run 200 JDoc test_database s
    | Some ep_get_schemas => run 200 JDoc get_schemas s
    | Some ep_list_clients =>
        match validate_limit (req_limit r) with
        | Return limit => run 200 JDocs (list_clients limit) s
        | Raise e => unprocessable e s
        end
    | Some ep_create_client =>
        match parse_body (validate_Client validate_email) (req_body r) with
        | Return payload => run 201 JDoc (create_client payload) s
        | Raise e => unprocessable e s
        end
    | Some ep_list_invoices =>
        match validate_limit (req_limit r) with
        | Return limit =>
            run 200 JDocs (list_invoices (req_status r) (req_client_id r) limit) s
        | Raise e => unprocessable e s
        end
    | Some ep_create_invoice =>
        match parse_body validate_Invoice (req_body r) with
        | Return payload => run 201 JDoc (create_invoice payload) s
        | Raise e => unprocessable e s
        end
    end.
End Server.

(** ** The persistence accessor, from its specification *)

Fixpoint bytes_eqb (a b : list byte) : bool :=
  match a, b with
  | [], [] => true
  | x :: a', y :: b' => Byte.eqb x y && bytes_eqb a' b'
  | _, _ => false
  end.

Definition opt_eqb {A} (eqb : A -> A -> bool) (a b : option A) : bool :=
  match a, b with
  | Some x, Some y => eqb x y
  | None, None => true
  | _, _ => false
  end.

Definition datetime_eqb (a b : datetime) : bool :=
  (year a =? year b)%N && (month a =? month b)%N && (day a =? day b)%N
  && (hour a =? hour b)%N && (minute a =? minute b)%N && (second a =? second b)%N
  && (microsecond a =? microsecond b)%N && opt_eqb Z.eqb (utcoffset a) (utcoffset b).

(** Equality of two stored values, field by field. *)
Fixpoint value_eqb (a b : value) : bool :=
  match a, b with
  | VNone, VNone => true
  | VBool x, VBool y => Bool.eqb x y
  | VInt x, VInt y => (x =? y)%Z
  | VFloat x, VFloat y => Qeq_bool x y
  | VStr x, VStr y => bool_decide (x = y)
  | VList x, VList y =>
      (fix go (x y : list value) : bool :=
         match x, y with
         | [], [] => true
         | u :: x', v :: y' => value_eqb u v && go x' y'
         | _, _ => false
         end) x y
  | VDict x, VDict y =>
      (fix go (x y : list (str * value)) : bool :=
         match x, y with
         | [], [] => true
         | (k, u) :: x', (k', v) :: y' =>
             bool_decide (k = k') && value_eqb u v && go x' y'
         | _, _ => false
         end) x y
  | VObjectId x, VObjectId y => bytes_eqb (binary x) (binary y)
  | VDatetime x, VDatetime y => datetime_eqb x y
  | _, _ => false
  end.

(** Modelled from the spec: the exact-match filter of the persistence
    accessor ([database.py] is not part of the sources), "a mapping of field
    name to required value; empty filter = all records". *)
Definition matches (filt d : doc) : bool :=
  forallb (fun '(k, v) =>
             match d !! k with
             | Some v' => value_eqb v' v
             | None => false
             end)
          (map_to_list filt).

Fixpoint bytes_le (k : nat) (n : N) : list byte :=
  match k with
  | O => []
  | Datatypes.S k' =>
      default x00 (Byte.of_N (n mod 256)%N) :: bytes_le k' (n / 256)%N
  end.

(** The 12-byte identifier number [n], big-endian. *)
Definition oid_of_N (n : N) : ObjectId := Oid (rev (bytes_le 12 n)).

(** Modelled from the spec: the document database behind the handle [db]
    ([database.py] is not part of the sources): its name, whether the
    connection is broken (every round trip then raises this error), the
    collections in the storage engine's natural order (here the order of
    insertion), and the number from which the next identifier is generated. *)
Record Mongo := {
  mongo_name : str;
  mongo_broken : option pyerror;
  mongo_collections : gmap (list N) (list (gmap (list N) value));
  mongo_next : N
}.

(** Modelled from the spec: the state of the process ([database.py] is not
    part of the sources): the environment variables and the handle [db],
    [None] when no connection was established at startup. *)
Record World := {
  environ : gmap (list N) (list N);
  db : option Mongo
}.

(** The records of a collection; one that was never written to is empty. *)
Definition documents (m : Mongo) (coll : str) : list doc :=
  default [] (mongo_collections m !! coll).

Definition not_available : pyerror :=
  PyError (lit "Exception") (lit "Database not available").

Definition none_type_error (what : string) : pyerror :=
  PyError (lit "TypeError") (lit "'NoneType' object " ++ lit what).

(** Modelled from the spec: a round trip to the server ([database.py] is
    not part of the sources); without a handle, or with a broken connection,
    it fails and "all operations depending on storage fail uniformly". *)
Definition round_trip {A} (f : Mongo -> A * Mongo) (on_none : pyerror)
  : M pyerror World A :=
  fun w =>
    match db w with
    | None => (Raise on_none, w)
    | Some m =>
        match mongo_broken m with
        | Some e => (Raise e, w)
        | None =>
            let '(a, m') := f m in
            (Return a, {| environ := environ w; db := Some m' |})
        end
    end.

(** Modelled from the spec: the store assigns the record its identifier
    ([database.py] is not part of the sources), "a database-generated unique
    identifier assigned at insertion"; the record goes last in its
    collection. *)
Definition insert_one (coll : str) (d : doc) (m : Mongo) : ObjectId * Mongo :=
  let oid := oid_of_N (mongo_next m) in
  (oid,
   {| mongo_name := mongo_name m;
      mongo_broken := mongo_broken m;
      mongo_collections :=
        <[coll := documents m coll ++ [<[lit "_id" := VObjectId oid]> d]]>
          (mongo_collections m);
      mongo_next := (mongo_next m + 1)%N |}).

(** Modelled from the spec: [insert(collection_name, record) -> identifier]
    of the persistence accessor ([database.py] is not part of the sources):
    "persists one record, returns its newly assigned identifier. Fails with a
    storage error if the underlying connection is unavailable". *)
Definition mongo_create_document (coll : str) (data : BaseModel)
  : M pyerror World str :=
  round_trip
    (fun m => let '(oid, m') := insert_one coll (model_dump data) m in
              (ObjectId_str oid, m'))
    not_available.

(** Modelled from the spec: [query(collection_name, filter, limit)] of the
    persistence accessor ([database.py] is not part of the sources): "returns
    records matching an exact-match filter, capped at limit, in the storage
    engine's natural order". *)
Definition mongo_get_documents (coll : str) (filt : doc) (limit : Z)
  : M pyerror World (list doc) :=
  round_trip
    (fun m => (take (Z.to_nat limit) (List.filter (matches filt) (documents m coll)), m))
    not_available.

(** Modelled from the spec: the handle [db] of the persistence accessor
    ([database.py] is not part of the sources), "a single shared connection
    handle": [db[name].find_one(filter)] is the first record of the
    collection that matches. *)
Definition mongo_find_one (coll : str) (filt : doc) : M pyerror World (option doc) :=
  round_trip
    (fun m => (List.find (matches filt) (documents m coll), m))
    (none_type_error "has no attribute 'find_one'").

(** Modelled from the spec: [db[name]] ([database.py] is not part of the
    sources); the collection is named, not contacted, and there must be a
    handle to subscript. *)
Definition mongo_getitem (coll : str) : M pyerror World str :=
  fun w =>
    match db w with
    | None => (Raise (none_type_error "is not subscriptable"), w)
    | Some _ => (Return coll, w)
    end.

(** Modelled from the spec: [db.list_collection_names()] ([database.py] is
    not part of the sources), the names of the collections. *)
Definition mongo_list_collection_names : M pyerror World (list str) :=
  round_trip
    (fun m => ((map_to_list (mongo_collections m)).*1, m))
    (none_type_error "has no attribute 'list_collection_names'").

(** Modelled from the spec: [db.name] ([database.py] is not part of the
    sources). *)
Definition mongo_db_name : M pyerror World value :=
  fun w =>
    match db w with
    | None => (Raise (none_type_error "has no attribute 'name'"), w)
    | Some m => (Return (VStr (mongo_name m)), w)
    end.

(** Modelled from the spec: the module [database] over this store
    ([database.py] is not part of the sources). *)
#[export] Instance mongo_runtime : Runtime World := {
  getenv k w := environ w !! k;
  db_is_not_None w := match db w with Some _ => true | None => false end;
  db_hasattr_name w := (Return (match db w with Some _ => true | None => false end), w);
  db_name := mongo_db_name;
  list_collection_names := mongo_list_collection_names;
  Collection := list N;
  db_getitem := mongo_getitem;
  find_one := mongo_find_one;
  create_document := mongo_create_document;
  get_documents := mongo_get_documents
}.



(** ** Requests *)

Definition GET_ (path : str) : request :=
  {| req_method := GET; req_path := path; req_limit := None;
     req_status := None; req_client_id := None; req_body := None |}.

Definition POST_ (path : str) (j : value) : request :=
  {| req_method := POST; req_path := path; req_limit := None;
     req_status := None; req_client_id := None; req_body := Some j |}.

Definition GET_clients (limit : option Z) : request :=
  {| req_method := GET; req_path := lit "/clients"; req_limit := limit;
     req_status := None; req_client_id := None; req_body := None |}.

Definition GET_invoices (status client_id : option str) (limit : option Z) : request :=
  {| req_method := GET; req_path := lit "/invoices"; req_limit := limit;
     req_status := status; req_client_id := client_id; req_body := None |}.

(** ** A small store and a few payloads, for the examples *)

Definition any_email (s : str) : option str := Some s.

Definition no_schema (c : model_cls) : value := VNone.

Definition empty_store : Mongo :=
  {| mongo_name := lit "appdb"; mongo_broken := None;
     mongo_collections := ∅; mongo_next := 0 |}.

Definition fresh_world : World := {| environ := ∅; db := Some empty_store |}.

Definition acme : Client.t :=
  {| Client.name := lit "Acme Co"; Client.email := None; Client.phone := None;
     Client.company := None; Client.address := None; Client.notes := None;
     Client.status := Client.active |}.

Definition acme_body : value :=
  VDict [ (lit "name", VStr (lit "Acme Co")); (lit "status", VStr (lit "active")) ].

Definition nameless_body : list (str * value) :=
  [ (lit "email", VStr (lit "a@b.co")) ].

Definition invoice_for (c : option str) : Invoice.t :=
  {| Invoice.invoice_number := None; Invoice.client_id := c;
     Invoice.issue_date := None; Invoice.due_date := None; Invoice.items := [];
     Invoice.currency := Invoice.USD; Invoice.status := Invoice.draft;
     Invoice.notes := None; Invoice.terms := None |}.

Definition invoice_body (c : option str) : value :=
  VDict [ (lit "client_id", opt_value c) ].

(** A validator that accepts the body as the given invoice. *)
Definition accept_as (p : Invoice.t) (j : value) : result (list verr) Invoice.t :=
  Return p.

(** A world with two invoices: one without [client_id], one with [""]. *)
Definition two_invoices : World :=
  snd (create_invoice (invoice_for (Some []))
         (snd (create_invoice (invoice_for None) fresh_world))).

(** A store that acknowledges every insertion and finds nothing. *)
#[export] Instance forgetful : Runtime unit := {
  getenv _ _ := None;
  db_is_not_None _ := true;
  db_hasattr_name := ret false;
  db_name := raise (PyError (lit "AttributeError") (lit "name"));
  list_collection_names := ret [];
  Collection := unit;
  db_getitem _ := ret tt;
  find_one _ _ := ret None;
  create_document _ _ := ret (lit "0123456789abcdef01234567");
  get_documents _ _ _ := ret []
}.

Definition stamp : datetime :=
  {| year := 2024; month := 3; day := 7; hour := 9; minute := 5; second := 0;
     microsecond := 0; utcoffset := None |}.

(** A stored record with an identifier, a timestamp and a list. *)
Definition stamped : doc :=
  <[lit "_id" := VObjectId (oid_of_N 255)]>
  (<[lit "created_at" := VDatetime stamp]>
  (<[lit "tags" := VList [VDatetime stamp; VInt 1]]> ∅)).



(** ** More stores, for the examples *)

(** A store with canned answers: the identifier [create_document] returns,
    what [find_one] finds, and what [db.name] gives. *)
Definition canned (id : str) (found : option doc) (nm : result pyerror value)
  : Runtime unit := {|
  getenv _ _ := None;
  db_is_not_None _ := true;
  db_hasattr_name := ret true;
  db_name := now nm;
  list_collection_names := ret [];
  Collection := unit;
  db_getitem _ := ret tt;
  find_one _ _ := ret found;
  create_document _ _ := ret id;
  get_documents _ _ _ := ret []
|}.

(** A handle whose [name] cannot be read. *)
Definition unreadable_name : Runtime unit :=
  canned [] None (Raise (PyError (lit "OperationFailure") (lit "not authorized"))).

(** No connection was established at startup. *)
Definition no_db : World := {| environ := ∅; db := None |}.

Definition timeout_error : pyerror :=
  PyError (lit "ServerSelectionTimeoutError") (lit "localhost:27017: refused").

(** A connection that fails at every round trip; [DATABASE_URL] is set. *)
Definition broken_world : World :=
  {| environ := {[ lit "DATABASE_URL" := lit "mongodb://localhost:27017" ]};
     db := Some {| mongo_name := lit "appdb"; mongo_broken := Some timeout_error;
                   mongo_collections := ∅; mongo_next := 0 |} |}.

(** The fields [Client] declares. *)
Definition Client_fields : list str :=
  [ lit "name"; lit "email"; lit "phone"; lit "company"; lit "address";
    lit "notes"; lit "status" ].

(** What [Optional[str]] takes: nothing, [None] or a string. *)
Definition optional_text (v : option value) : Prop :=
  match v with
  | None | Some VNone | Some (VStr _) => True
  | Some _ => False
  end.

(** A body with the name alone, and the same with an [_id] of the caller's. *)
Definition name_only : list (str * value) := [ (lit "name", VStr (lit "Acme Co")) ].

Definition name_and_id : list (str * value) :=
  [ (lit "_id", VStr (lit "0123456789abcdef01234567"));
    (lit "name", VStr (lit "Acme Co")) ].

Definition bad_status_body : list (str * value) :=
  [ (lit "status", VStr (lit "archived")) ].

Definition sample_id : str := lit "0123456789abcdef01234567".

Definition sample_oid : ObjectId :=
  Oid [x01; x23; x45; x67; x89; xab; xcd; xef; x01; x23; x45; x67].

(** A store whose identifiers are not those of [bson]. *)
Definition short_ids : Runtime unit := canned (lit "abc") None (Return VNone).

(** A store that finds an empty record under every identifier. *)
Definition empty_records : Runtime unit := canned sample_id (Some ∅) (Return VNone).




(** The paths routed for GET only. *)
Definition get_only_paths : list str :=
  [ lit "/"; lit "/api/health"; lit "/test"; lit "/schema" ].

(** An ASCII capital letter. *)
Definition is_upper (c : N) : bool := ((65 <=? c) && (c <=? 90))%N.

(** * Properties *)

(** ** Field names are distinct *)

Ltac keys :=
  solve [ reflexivity | vm_compute; congruence ].

Ltac lookups :=
  repeat first
    [ rewrite lookup_insert_eq
    | rewrite lookup_insert_ne by keys
    | rewrite lookup_singleton_eq
    | rewrite lookup_singleton_ne by keys
    | rewrite lookup_empty ].

(** ** Serialization *)

Lemma _serialize_doc_fmap (d : doc) : _serialize_doc d = json_safe <$> d.
Proof.
  unfold _serialize_doc.
  apply (map_fold_weak_ind (fun out m => out = json_safe <$> m)).
  - by rewrite fmap_empty.
  - intros k v m out _ ->. by rewrite fmap_insert.
Qed.

Lemma _serialize_doc_lookup (d : doc) (k : str) :
  _serialize_doc d !! k = json_safe <$> d !! k.
Proof. by rewrite _serialize_doc_fmap, lookup_fmap. Qed.

(** ** Identifiers and their string form *)





Lemma ObjectId_new_length (s : str) (o : ObjectId) :
  ObjectId_new s = Return o -> length s = 24%nat.
Proof.
  unfold ObjectId_new. destruct (length s =? 24)%nat eqn:E; [|done].
  intros _. by apply Nat.eqb_eq.
Qed.



(** ** Matching a record against [{"_id": oid}] *)

Lemma bytes_eqb_eq (a b : list byte) : bytes_eqb a b = true <-> a = b.
Proof.
  revert b. induction a as [|x a IH]; intros [|y b]; simpl; try done.
  rewrite andb_true_iff, IH. split.
  - intros [?%Byte.byte_dec_bl ->]. by subst.
  - intros [= -> ->]. split; [by apply Byte.byte_dec_lb|done].
Qed.

Lemma matches_by_id (o : ObjectId) (d : doc) :
  matches (by_id o) d = true <-> d !! lit "_id" = Some (VObjectId o).
Proof.
  unfold matches, by_id. rewrite map_to_list_singleton. simpl.
  rewrite andb_true_r.
  destruct (d !! lit "_id") as [v|]; [|done].
  destruct v; simpl; try done.
  rewrite bytes_eqb_eq. destruct o, o0. simpl. split; congruence.
Qed.


(** ** Routing *)

Lemma route_table :
  route GET (lit "/") = Some ep_read_root /\
  route GET (lit "/api/health") = Some ep_health /\
  route GET (lit "/test") = Some ep_test_database /\
  route GET (lit "/schema") = Some ep_get_schemas /\
  route GET (lit "/clients") = Some ep_list_clients /\
  route POST (lit "/clients") = Some ep_create_client /\
  route GET (lit "/invoices") = Some ep_list_invoices /\
  route POST (lit "/invoices") = Some ep_create_invoice.
Proof. repeat split; vm_compute; reflexivity. Qed.

Section Generic.
Context {S : Type} {R : Runtime S}.
Variable validate_email : str -> option str.
Variable validate_Invoice : value -> result (list verr) Invoice.t.
Variable model_json_schema : model_cls -> value.

Lemma serve_POST_invoices (j : value) (s : S) :
    serve validate_email validate_Invoice model_json_schema (POST_ (lit "/invoices") j) s =
    match validate_Invoice j with
    | Return payload => run 201 JDoc (create_invoice payload) s
    | Raise e => unprocessable e s
    end.
Proof. reflexivity. Qed.

Lemma serve_POST_clients (j : value) (s : S) :
    serve validate_email validate_Invoice model_json_schema (POST_ (lit "/clients") j) s =
    match validate_Client validate_email j with
    | Return payload => run 201 JDoc (create_client payload) s
    | Raise e => unprocessable e s
    end.
Proof. reflexivity. Qed.

Lemma serve_GET_invoices (status client_id : option str) (limit : option Z) (s : S) :
    serve validate_email validate_Invoice model_json_schema
          (GET_invoices status client_id limit) s =
    match validate_limit limit with
    | Return l => run 200 JDocs (list_invoices status client_id l) s
    | Raise e => unprocessable e s
    end.
Proof. reflexivity. Qed.

Lemma serve_GET_clients (limit : option Z) (s : S) :
    serve validate_email validate_Invoice model_json_schema (GET_clients limit) s =
    match validate_limit limit with
    | Return l => run 200 JDocs (list_clients l) s
    | Raise e => unprocessable e s
    end.
Proof. reflexivity. Qed.

  (** A reference of the wrong length is refused before the store is
      consulted. *)
Lemma create_invoice_wrong_length (payload : Invoice.t) (cid : str) (s : S) :
    Invoice.client_id payload = Some cid ->
    cid <> [] ->
    length cid <> 24%nat ->
    create_invoice payload s = (Raise (HTTPException 400 (lit "Invalid client_id")), s).
Proof.
    intros Hcid Hne Hlen. unfold create_invoice. rewrite Hcid.
    destruct cid as [|c cid]; [done|]. cbn [str_truthy].
    apply Nat.eqb_neq in Hlen. rewrite Hlen. reflexivity.
Qed.

Lemma create_client_unfold (payload : Client.t) :
    create_client payload = insert_and_fetch Client_cls (ClientModel payload).
Proof. reflexivity. Qed.


  (** What [insert_and_fetch] returns, from what the store answered. *)
Lemma insert_and_fetch_found cls data s id s1 coll s2 oid found s3 :
    create_document (_collection_name cls) data s = (Return id, s1) ->
    db_getitem (_collection_name cls) s1 = (Return coll, s2) ->
    ObjectId_new id = Return oid ->
    find_one coll (by_id oid) s2 = (Return found, s3) ->
    insert_and_fetch cls data s = (Return (enriched found id), s3).
Proof.
    intros H1 H2 H3 H4. unfold insert_and_fetch, bind, propagate, now, ret.
    by rewrite H1, H2, H3, H4.
Qed.


  (** A failing listing is reported in the field [database]. *)
Lemma test_database_listing_fails (s s1 s2 s3 : S) (nm : value) (e : pyerror) :
    db_is_not_None s = true ->
    db_hasattr_name s = (Return true, s1) ->
    db_name s1 = (Return nm, s2) ->
    list_collection_names s2 = (Raise e, s3) ->
    exists r : doc,
      test_database s = (Return r, s3) /\
      r !! lit "database"
      = Some (VStr (WARNING_SIGN ++ lit "  Connected but Error: " ++ str_prefix 80 (exn_str e))) /\
      r !! lit "collections" = Some (VList []).
Proof.
    intros H1 H2 H3 H4.
    unfold test_database, try_except, bind, read, call, setitem, ret.
    rewrite H1, H2, H3, H4. eexists. split; [reflexivity|]. by lookups.
Qed.

  (** Without a connection the report says so. *)
Lemma test_database_no_connection (s : S) :
    db_is_not_None s = false ->
    exists r : doc,
      test_database s = (Return r, s) /\
      r !! lit "database"
      = Some (VStr (WARNING_SIGN ++ lit "  Available but not initialized")) /\
      r !! lit "collections" = Some (VList []).
Proof.
    intros H1.
    unfold test_database, try_except, bind, read, call, setitem, ret.
    rewrite H1. eexists. split; [reflexivity|]. by lookups.
Qed.

Lemma list_invoices_empty_status (client_id : option str) (limit : Z) :
    list_invoices (Some []) client_id limit = list_invoices None client_id limit.
Proof. reflexivity. Qed.

Lemma list_invoices_empty_client_id (status : option str) (limit : Z) :
    list_invoices status (Some []) limit = list_invoices status None limit.
Proof. by destruct status as [[|c st]|]. Qed.

Lemma validate_Client_name_error (d : list (str * value)) :
    (dict_get (lit "name") d = None \/
     exists n, dict_get (lit "name") d = Some (VStr n) /\ (length n < 2)%nat) ->
    exists e rest, validate_Client validate_email (VDict d) = Raise (e :: rest) /\
                   loc e = lit "name".
Proof.
    intros Hname. unfold validate_Client.
    assert (exists k, required_str (lit "name") 2 120 (dict_get (lit "name") d)
                      = Raise [VErr (lit "name") k]) as [k ->].
    { destruct Hname as [-> | (n & -> & Hn)]; simpl; [by eexists|].
      apply Nat.ltb_lt in Hn. rewrite Hn. by eexists. }
    by eexists _, _.
Qed.
End Generic.

(** ** The store written from the specification *)

Lemma world_eta (w : World) (m : Mongo) :
  db w = Some m -> {| environ := environ w; db := Some m |} = w.
Proof. destruct w; simpl; by intros ->. Qed.

(** A round trip that leaves the store as it is leaves the world as it is. *)
Lemma round_trip_read {A} (f : Mongo -> A * Mongo) (e : pyerror) (w : World) :
  (forall m, snd (f m) = m) -> snd (round_trip f e w) = w.
Proof.
  intros Hf. unfold round_trip.
  destruct (db w) as [m|] eqn:Hdb; [|done].
  destruct (mongo_broken m); [done|].
  specialize (Hf m). destruct (f m) as [a m']. simpl in *. subst m'.
  by apply world_eta.
Qed.

Lemma round_trip_ok {A} (f : Mongo -> A * Mongo) (e : pyerror) (w : World) (m : Mongo) :
  db w = Some m -> mongo_broken m = None ->
  round_trip f e w
  = (Return (fst (f m)), {| environ := environ w; db := Some (snd (f m)) |}).
Proof. intros Hdb Hok. unfold round_trip. rewrite Hdb, Hok. by destruct (f m). Qed.








Lemma create_invoice_unknown_client (payload : Invoice.t) (cid : str) (o : ObjectId)
    (w : World) (m : Mongo) :
  Invoice.client_id payload = Some cid ->
  ObjectId_new cid = Return o ->
  db w = Some m ->
  mongo_broken m = None ->
  List.find (matches (by_id o)) (documents m (lit "client")) = None ->
  create_invoice payload w = (Raise (HTTPException 400 (lit "Invalid client_id")), w).
Proof.
  intros Hcid Hoid Hdb Hok Hnone. unfold create_invoice. rewrite Hcid.
  pose proof (ObjectId_new_length _ _ Hoid) as Hlen.
  destruct cid as [|c cid]; [done|]. cbn [str_truthy].
  apply Nat.eqb_eq in Hlen. rewrite Hlen.
  unfold bind, propagate, now, raise. simpl. unfold mongo_getitem. rewrite Hdb, Hoid.
  unfold mongo_find_one. rewrite (round_trip_ok _ _ w m) by done. simpl.
  change (_collection_name Client_cls) with (lit "client").
  rewrite Hnone. by rewrite world_eta.
Qed.

Lemma list_invoices_reads_only (status client_id : option str) (limit : Z) (w : World) :
  snd (list_invoices status client_id limit w) = w.
Proof.
  unfold list_invoices, bind, propagate, ret. simpl. unfold mongo_get_documents.
  match goal with
  | |- context [round_trip ?f ?e w] =>
      pose proof (round_trip_read f e w (fun _ => eq_refl)) as Hw;
      destruct (round_trip f e w) as [[docs|err] w']
  end; simpl in *; by subst.
Qed.

Lemma list_clients_reads_only (limit : Z) (w : World) :
  snd (list_clients limit w) = w.
Proof.
  unfold list_clients, bind, propagate, ret. simpl. unfold mongo_get_documents.
  match goal with
  | |- context [round_trip ?f ?e w] =>
      pose proof (round_trip_read f e w (fun _ => eq_refl)) as Hw;
      destruct (round_trip f e w) as [[docs|err] w']
  end; simpl in *; by subst.
Qed.

(** ** What a validated client carries *)

Section Validated.
Variable validate_email : str -> option str.

Lemma required_str_Return (f : str) (lo hi : nat) (v : option value) (s : str) :
  required_str f lo hi v = Return s ->
  v = Some (VStr s) /\ (lo <= length s <= hi)%nat.
Proof.
  unfold required_str. destruct v as [[]|]; try done.
  destruct (length s0 <? lo)%nat eqn:E1; [done|].
  destruct (hi <? length s0)%nat eqn:E2; [done|].
  intros [= ->]. apply Nat.ltb_ge in E1, E2. done.
Qed.




End Validated.

(** ** Identifiers stay unique *)






(** * The claims *)

(** C1, as stated: a non-empty [client_id] that is not 24 characters long
    lets the invoice through.  It does not: with ["abc"] the request is
    answered 400 "Invalid client_id" and nothing is stored. *)
Lemma post_invoices_short_client_id_not_created :
  let p := invoice_for (Some (lit "abc")) in
  let answer := serve any_email (accept_as p) no_schema
                  (POST_ (lit "/invoices") (invoice_body (Some (lit "abc"))))
                  fresh_world in
  Invoice.client_id p = Some (lit "abc") /\
  lit "abc" <> [] /\
  length (lit "abc") <> 24%nat /\
  answer = (Reply 400 (Detail (lit "Invalid client_id")), fresh_world) /\
  status_code (fst answer) <> 201.
Proof. vm_compute. repeat split; congruence. Qed.

(** C1, amended: for every POST /invoices request whose body validates and
    carries a non-empty [client_id] whose length is not 24, the store is not
    consulted, the request is answered 400 with detail "Invalid client_id",
    and the state is unchanged (no invoice is created). *)
Theorem post_invoices_wrong_length_client_id_refused
    {S : Type} {R : Runtime S}
    (validate_email : str -> option str)
    (validate_Invoice : value -> result (list verr) Invoice.t)
    (model_json_schema : model_cls -> value)
    (j : value) (payload : Invoice.t) (cid : str) (s : S) :
  validate_Invoice j = Return payload ->
  Invoice.client_id payload = Some cid ->
  cid <> [] ->
  length cid <> 24%nat ->
  serve validate_email validate_Invoice model_json_schema
        (POST_ (lit "/invoices") j) s
  = (Reply 400 (Detail (lit "Invalid client_id")), s).
Proof.
  intros Hv Hcid Hne Hlen. rewrite serve_POST_invoices, Hv. unfold run.
  by rewrite (create_invoice_wrong_length payload cid s Hcid Hne Hlen).
Qed.

(** The refusal at the client_id ["abc"], on a store that holds two invoices. *)
Lemma post_invoices_wrong_length_client_id_refused_witness :
  accept_as (invoice_for (Some (lit "abc"))) (invoice_body (Some (lit "abc")))
  = Return (invoice_for (Some (lit "abc"))) /\
  Invoice.client_id (invoice_for (Some (lit "abc"))) = Some (lit "abc") /\
  lit "abc" <> [] /\
  length (lit "abc") <> 24%nat /\
  serve any_email (accept_as (invoice_for (Some (lit "abc")))) no_schema
        (POST_ (lit "/invoices") (invoice_body (Some (lit "abc")))) two_invoices
  = (Reply 400 (Detail (lit "Invalid client_id")), two_invoices).
Proof.
  assert (H1 : accept_as (invoice_for (Some (lit "abc"))) (invoice_body (Some (lit "abc")))
               = Return (invoice_for (Some (lit "abc")))) by reflexivity.
  assert (H2 : Invoice.client_id (invoice_for (Some (lit "abc"))) = Some (lit "abc"))
    by reflexivity.
  assert (H3 : lit "abc" <> []) by (vm_compute; discriminate).
  assert (H4 : length (lit "abc") <> 24%nat) by (vm_compute; discriminate).
  refine (conj H1 (conj H2 (conj H3 (conj H4 _)))).
  exact (post_invoices_wrong_length_client_id_refused
           any_email _ no_schema _ _ _ two_invoices H1 H2 H3 H4).
Defined.

(** C2, at the input where the code departs from it: a [client_id] of 24
    characters that are not hexadecimal digits, with no client stored.
    [ObjectId] raises [InvalidId], the handler does not catch it, and the
    request is answered 500 instead of 400; nothing is stored. *)
Theorem post_invoices_non_hex_client_id_unhandled :
  let cid := lit "zzzzzzzzzzzzzzzzzzzzzzzz" in
  let p := invoice_for (Some cid) in
  length cid = 24%nat /\
  documents empty_store (lit "client") = [] /\
  create_invoice p fresh_world = (Raise (InvalidId cid), fresh_world) /\
  serve any_email (accept_as p) no_schema
        (POST_ (lit "/invoices") (invoice_body (Some cid))) fresh_world
  = (Reply 500 InternalServerError, fresh_world).
Proof. vm_compute. repeat split; reflexivity. Qed.

(** The part of C2 the code does honour: a [client_id] of 24 hexadecimal
    digits that is the identifier of no stored client is answered 400
    "Invalid client_id", and the state is unchanged. *)
Lemma post_invoices_unknown_client_refused
    (validate_email : str -> option str)
    (validate_Invoice : value -> result (list verr) Invoice.t)
    (model_json_schema : model_cls -> value)
    (j : value) (payload : Invoice.t) (cid : str) (o : ObjectId)
    (w : World) (m : Mongo) :
  validate_Invoice j = Return payload ->
  Invoice.client_id payload = Some cid ->
  ObjectId_new cid = Return o ->
  db w = Some m ->
  mongo_broken m = None ->
  Forall (fun d : doc => d !! lit "_id" <> Some (VObjectId o)) (documents m (lit "client")) ->
  serve validate_email validate_Invoice model_json_schema
        (POST_ (lit "/invoices") j) w
  = (Reply 400 (Detail (lit "Invalid client_id")), w).
Proof.
  intros Hv Hcid Hoid Hdb Hok Hall. rewrite serve_POST_invoices, Hv. unfold run.
  rewrite (create_invoice_unknown_client payload cid o w m); try done.
  induction Hall as [|d l Hd _ IH]; [done|]. simpl.
  destruct (matches (by_id o) d) eqn:E; [|done].
  by apply matches_by_id in E.
Qed.

(** C3: a POST /clients body without [name], or whose [name] has fewer than
    2 characters, is answered 422 with an error on the field [name]; the
    state is unchanged, so whatever is requested next (GET /clients with any
    limit) is answered as it would have been before. *)
Theorem post_clients_invalid_name_unprocessable
    {S : Type} {R : Runtime S}
    (validate_email : str -> option str)
    (validate_Invoice : value -> result (list verr) Invoice.t)
    (model_json_schema : model_cls -> value)
    (d : list (str * value)) (s : S) :
  (dict_get (lit "name") d = None \/
   exists n, dict_get (lit "name") d = Some (VStr n) /\ (length n < 2)%nat) ->
  let serve := serve validate_email validate_Invoice model_json_schema in
  exists errors,
    serve (POST_ (lit "/clients") (VDict d)) s
    = (Reply 422 (ValidationErrors errors), s) /\
    (exists e, e ∈ errors /\ loc e = lit "name") /\
    forall limit,
      serve (GET_clients limit) (snd (serve (POST_ (lit "/clients") (VDict d)) s))
      = serve (GET_clients limit) s.
Proof.
  intros Hname serve'. subst serve'.
  destruct (validate_Client_name_error validate_email d Hname) as (e & rest & Hv & He).
  exists (e :: rest). rewrite serve_POST_clients, Hv. unfold unprocessable.
  split; [done|]. split; [|done].
  exists e. split; [apply list_elem_of_here|done].
Qed.

(** The refusal at a body that has an [email] and no [name]. *)
Lemma post_clients_invalid_name_unprocessable_witness :
  (dict_get (lit "name") nameless_body = None \/
   exists n, dict_get (lit "name") nameless_body = Some (VStr n) /\ (length n < 2)%nat) /\
  exists errors,
    serve any_email (accept_as (invoice_for None)) no_schema
          (POST_ (lit "/clients") (VDict nameless_body)) fresh_world
    = (Reply 422 (ValidationErrors errors), fresh_world).
Proof.
  assert (H : dict_get (lit "name") nameless_body = None \/
              exists n, dict_get (lit "name") nameless_body = Some (VStr n)
                        /\ (length n < 2)%nat)
    by (left; reflexivity).
  split; [exact H|].
  destruct (post_clients_invalid_name_unprocessable
              any_email (accept_as (invoice_for None)) no_schema
              nameless_body fresh_world H) as (errors & Hserve & _).
  exists errors. exact Hserve.
Defined.



(** On a store that finds nothing, the answer is the identifier alone. *)
Example create_client_forgetful :
  create_client acme tt
  = (Return {[ lit "_id" := VStr (lit "0123456789abcdef01234567") ]}, tt).
Proof. vm_compute. reflexivity. Qed.

(** C5: [_serialize_doc] keeps the fields of the record; a field holding an
    [ObjectId] gets its string form, a field holding a [datetime] its
    ISO-8601 string, every other field keeps its value.  It is a function of
    the record alone, defined on every record. *)
Theorem serialize_doc_spec (d : doc) :
  dom (_serialize_doc d) = dom d /\
  (forall k o, d !! k = Some (VObjectId o) ->
               _serialize_doc d !! k = Some (VStr (ObjectId_str o))) /\
  (forall k t, d !! k = Some (VDatetime t) ->
               _serialize_doc d !! k = Some (VStr (isoformat t))) /\
  (forall k v, d !! k = Some v ->
               (forall o, v <> VObjectId o) -> (forall t, v <> VDatetime t) ->
               _serialize_doc d !! k = Some v) /\
  (forall k, d !! k = None -> _serialize_doc d !! k = None).
Proof.
  split; [rewrite _serialize_doc_fmap; apply dom_fmap_L|].
  repeat split; intros k; intros; rewrite _serialize_doc_lookup;
    match goal with H : d !! k = _ |- _ => rewrite H end; try done.
  simpl. f_equal. destruct v; try done; exfalso; naive_solver.
Qed.

Example serialize_stamped :
  map_to_list (_serialize_doc stamped)
  = map_to_list
      (<[lit "_id" := VStr (lit "0000000000000000000000ff")]>
       (<[lit "created_at" := VStr (lit "2024-03-07T09:05:00")]>
       (<[lit "tags" := VList [VDatetime stamp; VInt 1]]> ∅))).
Proof. vm_compute. reflexivity. Qed.


(** With a connection whose listing fails, the error is in the report. *)
Example test_database_broken :
  let e := PyError (lit "ServerSelectionTimeoutError") (lit "localhost:27017: refused") in
  let w := {| environ := ∅;
              db := Some {| mongo_name := lit "appdb"; mongo_broken := Some e;
                            mongo_collections := ∅; mongo_next := 0 |} |} in
  exists r, test_database w = (Return r, w) /\
            r !! lit "database"
            = Some (VStr (WARNING_SIGN ++ lit "  Connected but Error: localhost:27017: refused")).
Proof. eexists. split; vm_compute; reflexivity. Qed.

(** C7, as stated: GET /health returns [{status: ok}].  No route has the
    path [/health]: the request is answered 404. *)
Lemma get_health_not_found :
  route GET (lit "/health") = None /\
  serve any_email (accept_as (invoice_for None)) no_schema
        (GET_ (lit "/health")) fresh_world
  = (Reply 404 (Detail (lit "Not Found")), fresh_world).
Proof. vm_compute. split; reflexivity. Qed.

(** C7, amended: a GET request to the path [/api/health] returns the static
    body [{status: ok}]. *)
Theorem get_api_health_ok
    {S : Type} {R : Runtime S}
    (validate_email : str -> option str)
    (validate_Invoice : value -> result (list verr) Invoice.t)
    (model_json_schema : model_cls -> value)
    (s : S) :
  serve validate_email validate_Invoice model_json_schema (GET_ (lit "/api/health")) s
  = (Reply 200 (JDoc {[ lit "status" := VStr (lit "ok") ]}), s).
Proof. reflexivity. Qed.

(** C8: GET /invoices leaves the state as it was, so the same request made
    again, with nothing in between, gets the same answer. *)
Theorem get_invoices_twice_same
    (validate_email : str -> option str)
    (validate_Invoice : value -> result (list verr) Invoice.t)
    (model_json_schema : model_cls -> value)
    (status client_id : option str) (limit : option Z) (w : World) :
  let get := serve validate_email validate_Invoice model_json_schema
                   (GET_invoices status client_id limit) in
  snd (get w) = w /\ get (snd (get w)) = get w.
Proof.
  intros get. assert (Hw : snd (get w) = w).
  { subst get. cbv beta. rewrite serve_GET_invoices.
    destruct (validate_limit limit) as [l|e]; [|done].
    unfold run.
    pose proof (list_invoices_reads_only status client_id l w) as Hl.
    by destruct (list_invoices status client_id l w). }
  split; [exact Hw|]. by rewrite Hw.
Qed.

Example get_invoices_draft_twice :
  let get := serve any_email (accept_as (invoice_for None)) no_schema
                   (GET_invoices (Some (lit "draft")) None None) in
  exists l, get two_invoices = (Reply 200 (JDocs l), two_invoices) /\
            length l = 2%nat /\
            get (snd (get two_invoices)) = (Reply 200 (JDocs l), two_invoices).
Proof. eexists. vm_compute. repeat split; reflexivity. Qed.

(** C9: on GET /invoices, [status] or [client_id] given as the empty string
    is as if it were not given: the answer is that of the request without the
    parameter.  It is not the answer of the exact-match filter on the empty
    string: with one invoice whose [client_id] is [""] and one without, the
    request returns both, the filter one. *)
Theorem get_invoices_empty_parameter_ignored
    {S : Type} {R : Runtime S}
    (validate_email : str -> option str)
    (validate_Invoice : value -> result (list verr) Invoice.t)
    (model_json_schema : model_cls -> value)
    (status client_id : option str) (limit : option Z) (s : S) :
  let serve := serve validate_email validate_Invoice model_json_schema in
  serve (GET_invoices (Some []) client_id limit) s
  = serve (GET_invoices None client_id limit) s /\
  serve (GET_invoices status (Some []) limit) s
  = serve (GET_invoices status None limit) s /\
  serve (GET_invoices (Some []) (Some []) limit) s
  = serve (GET_invoices None None limit) s /\
  (exists a b,
     list_invoices None (Some []) 50 two_invoices = (Return [a; b], two_invoices) /\
     invoices_matching {[ lit "client_id" := VStr [] ]} 50 two_invoices
     = (Return [b], two_invoices)).
Proof.
  intros serve'. subst serve'. rewrite !serve_GET_invoices.
  rewrite ?list_invoices_empty_status, ?list_invoices_empty_client_id,
    ?list_invoices_empty_status.
  repeat split. eexists _, _. split; vm_compute; reflexivity.
Qed.



(** * Further properties of the handlers *)

(** ** The diagnostic route *)

Section Diagnostic.
Context {S : Type} {R : Runtime S}.

(** X1: without a handle ([db is None]) the report of [test_database] is the
    initial one with [database] saying so; nothing is called on [db] and the
    state is unchanged. *)
Theorem test_database_without_handle (s : S) :
  db_is_not_None s = false ->
  exists r : doc,
    test_database s = (Return r, s) /\
    r !! lit "backend" = Some (VStr (CHECK_MARK ++ lit " Running")) /\
    r !! lit "database"
    = Some (VStr (WARNING_SIGN ++ lit "  Available but not initialized")) /\
    r !! lit "database_url" = Some VNone /\
    r !! lit "database_name" = Some VNone /\
    r !! lit "connection_status" = Some (VStr (lit "Not Connected")) /\
    r !! lit "collections" = Some (VList []).
Proof.
  intros H1.
  unfold test_database, try_except, bind, read, call, setitem, ret.
  rewrite H1. eexists. split; [reflexivity|]. by lookups.
Qed.

(** X2: with a handle that has a name and a listing that succeeds, the
    report says "Connected & Working", carries [db.name], and lists the
    first 10 collection names in the order the driver gave them. *)
Theorem test_database_working (s s1 s2 s3 : S) (nm : value) (names : list str) :
  db_is_not_None s = true ->
  db_hasattr_name s = (Return true, s1) ->
  db_name s1 = (Return nm, s2) ->
  list_collection_names s2 = (Return names, s3) ->
  exists r : doc,
    test_database s = (Return r, s3) /\
    r !! lit "database" = Some (VStr (CHECK_MARK ++ lit " Connected & Working")) /\
    r !! lit "database_name" = Some nm /\
    r !! lit "connection_status" = Some (VStr (lit "Connected")) /\
    r !! lit "collections" = Some (VList (List.map VStr (take 10 names))) /\
    (length (take 10 names) = Nat.min 10 (length names)).
Proof.
  intros H1 H2 H3 H4.
  unfold test_database, try_except, bind, read, call, setitem, ret.
  rewrite H1, H2, H3, H4. eexists. split; [reflexivity|]. lookups.
  repeat split. apply length_take.
Qed.

(** X3: when the listing raises, the report still says "Connected" in
    [connection_status], [collections] stays empty, and [database] carries
    the first 80 characters of the error. *)
Theorem test_database_listing_error (s s1 s2 s3 : S) (nm : value) (e : pyerror) :
  db_is_not_None s = true ->
  db_hasattr_name s = (Return true, s1) ->
  db_name s1 = (Return nm, s2) ->
  list_collection_names s2 = (Raise e, s3) ->
  exists r : doc,
    test_database s = (Return r, s3) /\
    r !! lit "database"
    = Some (VStr (WARNING_SIGN ++ lit "  Connected but Error: " ++ take 80 (exn_str e))) /\
    r !! lit "connection_status" = Some (VStr (lit "Connected")) /\
    r !! lit "database_name" = Some nm /\
    r !! lit "collections" = Some (VList []).
Proof.
  intros H1 H2 H3 H4.
  unfold test_database, try_except, bind, read, call, setitem, ret.
  rewrite H1, H2, H3, H4. eexists. split; [reflexivity|]. by lookups.
Qed.

(** X4: when reading [db.name] raises, the outer handler takes over: the
    listing is not attempted, [connection_status] is still "Not Connected",
    [database_name] is still [None], and [database] carries the first 80
    characters of the error. *)
Theorem test_database_name_error (s s1 s2 : S) (e : pyerror) :
  db_is_not_None s = true ->
  db_hasattr_name s = (Return true, s1) ->
  db_name s1 = (Raise e, s2) ->
  exists r : doc,
    test_database s = (Return r, s2) /\
    r !! lit "database"
    = Some (VStr (CROSS_MARK ++ lit " Error: " ++ take 80 (exn_str e))) /\
    r !! lit "connection_status" = Some (VStr (lit "Not Connected")) /\
    r !! lit "database_name" = Some VNone /\
    r !! lit "collections" = Some (VList []).
Proof.
  intros H1 H2 H3.
  unfold test_database, try_except, bind, read, call, setitem, ret.
  rewrite H1, H2, H3. eexists. split; [reflexivity|]. by lookups.
Qed.

(** X5: with a handle, [database_url] tells whether [DATABASE_URL] is set to
    a non-empty value (an empty value counts as not set), whatever the calls
    on [db] do afterwards. *)
Theorem test_database_url (s : S) :
  db_is_not_None s = true ->
  exists (r : doc) (s' : S),
    test_database s = (Return r, s') /\
    r !! lit "database_url"
    = Some (VStr (match getenv (lit "DATABASE_URL") s with
                  | Some (_ :: _) => CHECK_MARK ++ lit " Set"
                  | _ => CROSS_MARK ++ lit " Not Set"
                  end)).
Proof.
  intros H1.
  unfold test_database, try_except, bind, read, call, setitem, ret.
  rewrite H1.
  assert (Hurl : (if opt_truthy (getenv (lit "DATABASE_URL") s)
                  then CHECK_MARK ++ lit " Set" else CROSS_MARK ++ lit " Not Set")
                 = match getenv (lit "DATABASE_URL") s with
                   | Some (_ :: _) => CHECK_MARK ++ lit " Set"
                   | _ => CROSS_MARK ++ lit " Not Set"
                   end).
  { by destruct (getenv (lit "DATABASE_URL") s) as [[|c u]|]. }
  rewrite Hurl.
  destruct (db_hasattr_name s) as [[[|]|e] s1].
  - destruct (db_name s1) as [[nm|e] s2].
    + destruct (list_collection_names s2) as [[names|e] s3];
        eexists _, _; (split; [reflexivity|]); by lookups.
    + eexists _, _; (split; [reflexivity|]); by lookups.
  - destruct (list_collection_names s1) as [[names|e] s3];
      eexists _, _; (split; [reflexivity|]); by lookups.
  - eexists _, _; (split; [reflexivity|]); by lookups.
Qed.

(** X6: in every state the report says the backend is running, and its
    [database] line is never longer than 105 characters: the error text is
    cut at 80. *)
Theorem test_database_report_bounded (s : S) :
  exists (r : doc) (s' : S) (msg : str),
    test_database s = (Return r, s') /\
    r !! lit "backend" = Some (VStr (CHECK_MARK ++ lit " Running")) /\
    r !! lit "database" = Some (VStr msg) /\
    (length msg <= 105)%nat.
Proof.
  assert (Hcut : forall e : pyerror, (length (str_prefix 80 (exn_str e)) <= 80)%nat).
  { intros e. unfold str_prefix. rewrite length_take. lia. }
  unfold test_database, try_except, bind, read, call, setitem, ret.
  destruct (db_is_not_None s).
  2:{ eexists _, _, _. split; [reflexivity|]. lookups. repeat split. vm_compute. lia. }
  destruct (db_hasattr_name s) as [[[|]|e] s1].
  - destruct (db_name s1) as [[nm|e] s2].
    + destruct (list_collection_names s2) as [[names|e] s3].
      * eexists _, _, _. split; [reflexivity|]. lookups. repeat split.
        vm_compute. lia.
      * eexists _, _, _. split; [reflexivity|]. lookups. repeat split.
        rewrite !length_app. specialize (Hcut e).
        change (length WARNING_SIGN) with 2%nat.
        change (length (lit "  Connected but Error: ")) with 23%nat. lia.
    + eexists _, _, _. split; [reflexivity|]. lookups. repeat split.
      rewrite !length_app. specialize (Hcut e).
      change (length CROSS_MARK) with 1%nat.
      change (length (lit " Error: ")) with 8%nat. lia.
  - destruct (list_collection_names s1) as [[names|e] s3].
    + eexists _, _, _. split; [reflexivity|]. lookups. repeat split.
      vm_compute. lia.
    + eexists _, _, _. split; [reflexivity|]. lookups. repeat split.
      rewrite !length_app. specialize (Hcut e).
      change (length WARNING_SIGN) with 2%nat.
      change (length (lit "  Connected but Error: ")) with 23%nat. lia.
  - eexists _, _, _. split; [reflexivity|]. lookups. repeat split.
    rewrite !length_app. specialize (Hcut e).
    change (length CROSS_MARK) with 1%nat.
    change (length (lit " Error: ")) with 8%nat. lia.
Qed.
End Diagnostic.

(** The report when no connection was established. *)
Lemma test_database_without_handle_witness :
  db_is_not_None no_db = false /\
  exists r : doc,
    test_database no_db = (Return r, no_db) /\
    r !! lit "connection_status" = Some (VStr (lit "Not Connected")).
Proof.
  assert (H1 : db_is_not_None no_db = false) by reflexivity.
  split; [exact H1|].
  destruct (test_database_without_handle no_db H1)
    as (r & Hr & _ & _ & _ & _ & Hc & _).
  exists r. split; [exact Hr|exact Hc].
Defined.

(** The report on the store that holds two invoices. *)
Lemma test_database_working_witness :
  db_is_not_None two_invoices = true /\
  db_hasattr_name two_invoices = (Return true, two_invoices) /\
  db_name two_invoices = (Return (VStr (lit "appdb")), two_invoices) /\
  list_collection_names two_invoices = (Return [lit "invoice"], two_invoices) /\
  exists r : doc,
    test_database two_invoices = (Return r, two_invoices) /\
    r !! lit "collections" = Some (VList [VStr (lit "invoice")]).
Proof.
  assert (H1 : db_is_not_None two_invoices = true) by (vm_compute; reflexivity).
  assert (H2 : db_hasattr_name two_invoices = (Return true, two_invoices))
    by (vm_compute; reflexivity).
  assert (H3 : db_name two_invoices = (Return (VStr (lit "appdb")), two_invoices))
    by (vm_compute; reflexivity).
  assert (H4 : list_collection_names two_invoices
               = (Return [lit "invoice"], two_invoices))
    by (vm_compute; reflexivity).
  refine (conj H1 (conj H2 (conj H3 (conj H4 _)))).
  destruct (test_database_working two_invoices two_invoices two_invoices two_invoices
              (VStr (lit "appdb")) [lit "invoice"] H1 H2 H3 H4)
    as (r & Hr & _ & _ & _ & Hc & _).
  exists r. split; [exact Hr|exact Hc].
Defined.

(** The report on a connection that refuses every round trip. *)
Lemma test_database_listing_error_witness :
  db_is_not_None broken_world = true /\
  db_hasattr_name broken_world = (Return true, broken_world) /\
  db_name broken_world = (Return (VStr (lit "appdb")), broken_world) /\
  list_collection_names broken_world = (Raise timeout_error, broken_world) /\
  exists r : doc,
    test_database broken_world = (Return r, broken_world) /\
    r !! lit "connection_status" = Some (VStr (lit "Connected")).
Proof.
  assert (H1 : db_is_not_None broken_world = true) by reflexivity.
  assert (H2 : db_hasattr_name broken_world = (Return true, broken_world))
    by reflexivity.
  assert (H3 : db_name broken_world = (Return (VStr (lit "appdb")), broken_world))
    by reflexivity.
  assert (H4 : list_collection_names broken_world = (Raise timeout_error, broken_world))
    by reflexivity.
  refine (conj H1 (conj H2 (conj H3 (conj H4 _)))).
  destruct (test_database_listing_error broken_world broken_world broken_world
              broken_world (VStr (lit "appdb")) timeout_error H1 H2 H3 H4)
    as (r & Hr & _ & Hc & _).
  exists r. split; [exact Hr|exact Hc].
Defined.

(** The report on a handle whose [name] cannot be read. *)
Lemma test_database_name_error_witness :
  @db_is_not_None unit unreadable_name tt = true /\
  @db_hasattr_name unit unreadable_name tt = (Return true, tt) /\
  @db_name unit unreadable_name tt
  = (Raise (PyError (lit "OperationFailure") (lit "not authorized")), tt) /\
  exists r : doc,
    @test_database unit unreadable_name tt = (Return r, tt) /\
    r !! lit "connection_status" = Some (VStr (lit "Not Connected")).
Proof.
  assert (H1 : @db_is_not_None unit unreadable_name tt = true) by reflexivity.
  assert (H2 : @db_hasattr_name unit unreadable_name tt = (Return true, tt))
    by reflexivity.
  assert (H3 : @db_name unit unreadable_name tt
               = (Raise (PyError (lit "OperationFailure") (lit "not authorized")), tt))
    by reflexivity.
  refine (conj H1 (conj H2 (conj H3 _))).
  destruct (@test_database_name_error unit unreadable_name tt tt tt _ H1 H2 H3)
    as (r & Hr & _ & Hc & _).
  exists r. split; [exact Hr|exact Hc].
Defined.

(** The report when [DATABASE_URL] is set. *)
Lemma test_database_url_witness :
  db_is_not_None broken_world = true /\
  exists (r : doc) (s' : World),
    test_database broken_world = (Return r, s') /\
    r !! lit "database_url" = Some (VStr (CHECK_MARK ++ lit " Set")).
Proof.
  assert (H1 : db_is_not_None broken_world = true) by reflexivity.
  split; [exact H1|].
  destruct (test_database_url broken_world H1) as (r & s' & Hr & Hu).
  exists r, s'. split; [exact Hr|]. rewrite Hu. vm_compute. reflexivity.
Defined.

(** ** Validation against [Client] *)

Section ClientSchema.
Variable validate_email : str -> option str.

Lemma required_str_accepts (f : str) (lo hi : nat) (v : option value) :
  (exists s, required_str f lo hi v = Return s) <->
  (exists s, v = Some (VStr s) /\ (lo <= length s <= hi)%nat).
Proof.
  split.
  - intros [s Hs]. exists s. by apply required_str_Return in Hs.
  - intros (s & -> & Hlo & Hhi). exists s. simpl.
    apply Nat.ltb_ge in Hlo, Hhi. by rewrite Hlo, Hhi.
Qed.

Lemma optional_str_accepts (f : str) (v : option value) :
  (exists o, optional_str f v = Return o) <-> optional_text v.
Proof.
  unfold optional_str, optional_text.
  destruct v as [[]|]; split; try done; try (intros _; by eexists); by intros [? ?].
Qed.

Lemma optional_email_accepts (f : str) (v : option value) :
  (exists o, optional_email validate_email f v = Return o) <->
  match v with
  | None | Some VNone => True
  | Some (VStr s) => validate_email s <> None
  | Some _ => False
  end.
Proof.
  unfold optional_email.
  destruct v as [[]|]; split; try done; try (intros _; by eexists);
    try by intros [? ?].
  - intros [o Ho]. by destruct (validate_email s).
  - intros Hs. destruct (validate_email s); [by eexists|done].
Qed.

Lemma client_status_accepts (f : str) (v : option value) :
  (exists st, client_status f v = Return st) <->
  match v with
  | None => True
  | Some (VStr s) => s = lit "active" \/ s = lit "inactive" \/ s = lit "prospect"
  | Some _ => False
  end.
Proof.
  unfold client_status.
  destruct v as [[]|]; split; try done; try (intros _; by eexists);
    try by intros [? ?].
  - intros [st Hst].
    destruct (decide (s = lit "active")); [by left|].
    destruct (decide (s = lit "inactive")); [by right; left|].
    destruct (decide (s = lit "prospect")); [by right; right|done].
  - intros Hs.
    destruct (decide (s = lit "active")); [by eexists|].
    destruct (decide (s = lit "inactive")); [by eexists|].
    destruct (decide (s = lit "prospect")); [by eexists|].
    by destruct Hs as [|[|]].
Qed.

(** X7: a body is accepted as a [Client] exactly when it is an object whose
    [name] is a string of 2 to 120 characters, whose [email] is absent,
    [None] or an address the e-mail validator accepts, whose [phone],
    [company], [address] and [notes] are absent, [None] or strings, and whose
    [status] is absent or one of "active", "inactive", "prospect". *)
Theorem validate_Client_accepts_iff (j : value) :
  (exists p, validate_Client validate_email j = Return p) <->
  exists d, j = VDict d /\
    (exists n, dict_get (lit "name") d = Some (VStr n) /\ (2 <= length n <= 120)%nat) /\
    match dict_get (lit "email") d with
    | None | Some VNone => True
    | Some (VStr s) => validate_email s <> None
    | Some _ => False
    end /\
    optional_text (dict_get (lit "phone") d) /\
    optional_text (dict_get (lit "company") d) /\
    optional_text (dict_get (lit "address") d) /\
    optional_text (dict_get (lit "notes") d) /\
    match dict_get (lit "status") d with
    | None => True
    | Some (VStr s) => s = lit "active" \/ s = lit "inactive" \/ s = lit "prospect"
    | Some _ => False
    end.
Proof.
  split.
  - intros [p Hp]. unfold validate_Client in Hp. destruct j; try done.
    exists d. split; [done|].
    destruct (required_str _ _ _ _) as [n|] eqn:E1; [|done].
    destruct (optional_email _ _ _) as [e|] eqn:E2; [|done].
    destruct (optional_str (lit "phone") _) as [ph|] eqn:E3; [|done].
    destruct (optional_str (lit "company") _) as [co|] eqn:E4; [|done].
    destruct (optional_str (lit "address") _) as [ad|] eqn:E5; [|done].
    destruct (optional_str (lit "notes") _) as [no|] eqn:E6; [|done].
    destruct (client_status _ _) as [st|] eqn:E7; [|done].
    split; [apply (required_str_accepts (lit "name")); by eexists|].
    split; [apply (optional_email_accepts (lit "email")); by eexists|].
    split; [apply (optional_str_accepts (lit "phone")); by eexists|].
    split; [apply (optional_str_accepts (lit "company")); by eexists|].
    split; [apply (optional_str_accepts (lit "address")); by eexists|].
    split; [apply (optional_str_accepts (lit "notes")); by eexists|].
    apply (client_status_accepts (lit "status")); by eexists.
  - intros (d & -> & Hn & He & Hp & Hc & Ha & Ho & Hs).
    apply (required_str_accepts (lit "name")) in Hn as [n Hn].
    apply (optional_email_accepts (lit "email")) in He as [e He].
    apply (optional_str_accepts (lit "phone")) in Hp as [ph Hp].
    apply (optional_str_accepts (lit "company")) in Hc as [co Hc].
    apply (optional_str_accepts (lit "address")) in Ha as [ad Ha].
    apply (optional_str_accepts (lit "notes")) in Ho as [no Ho].
    apply (client_status_accepts (lit "status")) in Hs as [st Hs].
    unfold validate_Client. rewrite Hn, He, Hp, Hc, Ha, Ho, Hs. by eexists.
Qed.

(** X8: a body that gives a valid [name] and none of the other fields is
    accepted with the defaults of the schema: the optional fields [None],
    [status] "active". *)
Theorem validate_Client_defaults (d : list (str * value)) (n : str) :
  dict_get (lit "name") d = Some (VStr n) ->
  (2 <= length n <= 120)%nat ->
  Forall (fun f => dict_get f d = None)
         [ lit "email"; lit "phone"; lit "company"; lit "address";
           lit "notes"; lit "status" ] ->
  validate_Client validate_email (VDict d)
  = Return {| Client.name := n; Client.email := None; Client.phone := None;
              Client.company := None; Client.address := None;
              Client.notes := None; Client.status := Client.active |}.
Proof.
  intros Hn [Hlo Hhi] Hrest.
  repeat match goal with
         | H : Forall _ (_ :: _) |- _ => apply Forall_cons in H as [? H]
         end.
  unfold validate_Client.
  repeat match goal with H : dict_get _ d = _ |- _ => rewrite H; clear H end.
  simpl. apply Nat.ltb_ge in Hlo, Hhi. by rewrite Hlo, Hhi.
Qed.

(** X9: validation looks at the seven declared fields only: two bodies that
    agree on them get the same verdict, so keys the schema does not declare
    (an [_id] of the caller's, say) and the order of the keys do not
    matter. *)
Theorem validate_Client_declared_fields_only (d d' : list (str * value)) :
  Forall (fun f => dict_get f d = dict_get f d') Client_fields ->
  validate_Client validate_email (VDict d) = validate_Client validate_email (VDict d').
Proof.
  intros Hsame. unfold Client_fields in Hsame.
  repeat match goal with
         | H : Forall _ (_ :: _) |- _ => apply Forall_cons in H as [? H]
         end.
  unfold validate_Client.
  repeat match goal with H : dict_get _ d = _ |- _ => rewrite H; clear H end.
  reflexivity.
Qed.

Lemma required_str_verdict (f : str) (lo hi : nat) (v : option value) :
  (exists s, required_str f lo hi v = Return s)
  \/ (exists k, required_str f lo hi v = Raise [VErr f k]).
Proof.
  unfold required_str. destruct v as [[]|]; eauto.
  destruct (_ <? _)%nat; eauto. destruct (_ <? _)%nat; eauto.
Qed.

Lemma optional_str_verdict (f : str) (v : option value) :
  (exists o, optional_str f v = Return o)
  \/ (exists k, optional_str f v = Raise [VErr f k]).
Proof. unfold optional_str. destruct v as [[]|]; eauto. Qed.

Lemma optional_email_verdict (f : str) (v : option value) :
  (exists o, optional_email validate_email f v = Return o)
  \/ (exists k, optional_email validate_email f v = Raise [VErr f k]).
Proof.
  unfold optional_email. destruct v as [[]|]; eauto.
  destruct (validate_email s); eauto.
Qed.

Lemma client_status_verdict (f : str) (v : option value) :
  (exists st, client_status f v = Return st)
  \/ (exists k, client_status f v = Raise [VErr f k]).
Proof.
  unfold client_status. destruct v as [[]|]; eauto.
  repeat case_decide; eauto.
Qed.

Ltac in_order :=
  repeat first [ apply sublist_nil | apply sublist_skip | apply sublist_cons ].

(** A rejection names at least one field. *)
Lemma validate_Client_rejected (d : list (str * value)) (errors : list verr) :
  validate_Client validate_email (VDict d) = Raise errors -> errors <> [].
Proof.
  unfold validate_Client, Client_fields.
  destruct (required_str_verdict (lit "name") 2 120 (dict_get (lit "name") d))
    as [[? ->]|[? ->]];
  destruct (optional_email_verdict (lit "email") (dict_get (lit "email") d))
    as [[? ->]|[? ->]];
  destruct (optional_str_verdict (lit "phone") (dict_get (lit "phone") d))
    as [[? ->]|[? ->]];
  destruct (optional_str_verdict (lit "company") (dict_get (lit "company") d))
    as [[? ->]|[? ->]];
  destruct (optional_str_verdict (lit "address") (dict_get (lit "address") d))
    as [[? ->]|[? ->]];
  destruct (optional_str_verdict (lit "notes") (dict_get (lit "notes") d))
    as [[? ->]|[? ->]];
  destruct (client_status_verdict (lit "status") (dict_get (lit "status") d))
    as [[? ->]|[? ->]];
  by intros [= <-].
Qed.

(** X10: a rejected object gets at least one error and at most one per
    declared field, in the order of the declarations. *)
Theorem validate_Client_rejection (d : list (str * value)) (errors : list verr) :
  validate_Client validate_email (VDict d) = Raise errors ->
  errors <> [] /\ sublist (List.map loc errors) Client_fields.
Proof.
  unfold validate_Client, Client_fields.
  destruct (required_str_verdict (lit "name") 2 120 (dict_get (lit "name") d))
    as [[? ->]|[? ->]];
  destruct (optional_email_verdict (lit "email") (dict_get (lit "email") d))
    as [[? ->]|[? ->]];
  destruct (optional_str_verdict (lit "phone") (dict_get (lit "phone") d))
    as [[? ->]|[? ->]];
  destruct (optional_str_verdict (lit "company") (dict_get (lit "company") d))
    as [[? ->]|[? ->]];
  destruct (optional_str_verdict (lit "address") (dict_get (lit "address") d))
    as [[? ->]|[? ->]];
  destruct (optional_str_verdict (lit "notes") (dict_get (lit "notes") d))
    as [[? ->]|[? ->]];
  destruct (client_status_verdict (lit "status") (dict_get (lit "status") d))
    as [[? ->]|[? ->]];
  intros [= <-]; (split; [done | cbn [errors_of app List.map loc]; in_order]).
Qed.

(** X11: a [status] that is not one of the three values is reported, at the
    field [status], whatever the other fields are. *)
Theorem validate_Client_bad_status (d : list (str * value)) (v : value) :
  dict_get (lit "status") d = Some v ->
  v <> VStr (lit "active") -> v <> VStr (lit "inactive") -> v <> VStr (lit "prospect") ->
  exists errors,
    validate_Client validate_email (VDict d) = Raise errors /\
    VErr (lit "status") (lit "literal_error") ∈ errors.
Proof.
  intros Hst Ha Hi Hp.
  assert (Hbad : client_status (lit "status") (dict_get (lit "status") d)
                 = Raise [VErr (lit "status") (lit "literal_error")]).
  { rewrite Hst. unfold client_status. destruct v; try done.
    repeat case_decide; by subst. }
  unfold validate_Client. rewrite Hbad.
  destruct (required_str _ _ _ _); destruct (optional_email _ _ _);
    destruct (optional_str (lit "phone") _); destruct (optional_str (lit "company") _);
    destruct (optional_str (lit "address") _); destruct (optional_str (lit "notes") _);
    eexists; (split; [reflexivity|]); simpl;
    rewrite ?elem_of_app; repeat first [ apply list_elem_of_here | right ].
Qed.
End ClientSchema.

(** The body [{"name": "Acme Co"}] is the client "Acme Co" with the defaults. *)
Lemma validate_Client_defaults_witness :
  dict_get (lit "name") name_only = Some (VStr (lit "Acme Co")) /\
  (2 <= length (lit "Acme Co") <= 120)%nat /\
  Forall (fun f => dict_get f name_only = None)
         [ lit "email"; lit "phone"; lit "company"; lit "address";
           lit "notes"; lit "status" ] /\
  validate_Client any_email (VDict name_only) = Return acme.
Proof.
  assert (H1 : dict_get (lit "name") name_only = Some (VStr (lit "Acme Co")))
    by reflexivity.
  assert (H2 : (2 <= length (lit "Acme Co") <= 120)%nat) by (vm_compute; lia).
  assert (H3 : Forall (fun f => dict_get f name_only = None)
                 [ lit "email"; lit "phone"; lit "company"; lit "address";
                   lit "notes"; lit "status" ])
    by (repeat constructor).
  refine (conj H1 (conj H2 (conj H3 _))).
  exact (validate_Client_defaults any_email name_only (lit "Acme Co") H1 H2 H3).
Defined.

(** An [_id] sent by the caller changes nothing. *)
Lemma validate_Client_declared_fields_only_witness :
  Forall (fun f => dict_get f name_and_id = dict_get f name_only) Client_fields /\
  validate_Client any_email (VDict name_and_id)
  = validate_Client any_email (VDict name_only).
Proof.
  assert (H1 : Forall (fun f => dict_get f name_and_id = dict_get f name_only)
                 Client_fields)
    by (repeat constructor).
  split; [exact H1|].
  exact (validate_Client_declared_fields_only any_email name_and_id name_only H1).
Defined.

(** The body without a name is rejected with one error. *)
Lemma validate_Client_rejection_witness :
  validate_Client any_email (VDict nameless_body)
  = Raise [VErr (lit "name") (lit "missing")] /\
  [VErr (lit "name") (lit "missing")] <> [] /\
  sublist (List.map loc [VErr (lit "name") (lit "missing")]) Client_fields.
Proof.
  assert (H1 : validate_Client any_email (VDict nameless_body)
               = Raise [VErr (lit "name") (lit "missing")])
    by (vm_compute; reflexivity).
  split; [exact H1|].
  exact (validate_Client_rejection any_email nameless_body _ H1).
Defined.

(** The status "archived" is reported, and so is the missing name. *)
Lemma validate_Client_bad_status_witness :
  dict_get (lit "status") bad_status_body = Some (VStr (lit "archived")) /\
  VStr (lit "archived") <> VStr (lit "active") /\
  VStr (lit "archived") <> VStr (lit "inactive") /\
  VStr (lit "archived") <> VStr (lit "prospect") /\
  exists errors,
    validate_Client any_email (VDict bad_status_body) = Raise errors /\
    VErr (lit "status") (lit "literal_error") ∈ errors.
Proof.
  assert (H1 : dict_get (lit "status") bad_status_body = Some (VStr (lit "archived")))
    by reflexivity.
  assert (H2 : VStr (lit "archived") <> VStr (lit "active"))
    by (vm_compute; congruence).
  assert (H3 : VStr (lit "archived") <> VStr (lit "inactive"))
    by (vm_compute; congruence).
  assert (H4 : VStr (lit "archived") <> VStr (lit "prospect"))
    by (vm_compute; congruence).
  refine (conj H1 (conj H2 (conj H3 (conj H4 _)))).
  exact (validate_Client_bad_status any_email bad_status_body _ H1 H2 H3 H4).
Defined.

(** ** Requests that do not reach a handler, and failures of the store *)

Section Requests.
Context {S : Type} {R : Runtime S}.
Variable validate_email : str -> option str.
Variable validate_Invoice : value -> result (list verr) Invoice.t.
Variable model_json_schema : model_cls -> value.

(** X12: a POST /clients request without a body, or whose body is not
    accepted as a [Client], is answered 422 with at least one error;
    [create_client] does not run and the state is unchanged. *)
Theorem post_clients_rejected_unchanged (b : option value) (s : S) :
  (b = None \/
   exists j, b = Some j /\ ~ exists p, validate_Client validate_email j = Return p) ->
  exists errors,
    serve validate_email validate_Invoice model_json_schema
          {| req_method := POST; req_path := lit "/clients"; req_limit := None;
             req_status := None; req_client_id := None; req_body := b |} s
    = (Reply 422 (ValidationErrors errors), s) /\
    errors <> [].
Proof.
  intros [-> | (j & -> & Hrej)].
  - eexists. split; [reflexivity|done].
  - change (serve validate_email validate_Invoice model_json_schema
              {| req_method := POST; req_path := lit "/clients"; req_limit := None;
                 req_status := None; req_client_id := None; req_body := Some j |} s)
      with (serve validate_email validate_Invoice model_json_schema
              (POST_ (lit "/clients") j) s).
    rewrite serve_POST_clients.
    destruct (validate_Client validate_email j) as [p|errors] eqn:Hv.
    + exfalso. apply Hrej. by exists p.
    + exists errors. split; [done|].
      destruct j; try (by injection Hv as <-).
      by apply (validate_Client_rejected validate_email d).
Qed.

(** X13: a [limit] below 1 or above 200 is refused with 422 on both
    listings; [get_documents] is not called and the state is unchanged. *)
Theorem list_limit_out_of_range (n : Z) (status client_id : option str) (s : S) :
  n < 1 \/ 200 < n ->
  exists e,
    loc e = lit "limit" /\
    serve validate_email validate_Invoice model_json_schema (GET_clients (Some n)) s
    = (Reply 422 (ValidationErrors [e]), s) /\
    serve validate_email validate_Invoice model_json_schema
          (GET_invoices status client_id (Some n)) s
    = (Reply 422 (ValidationErrors [e]), s).
Proof.
  intros Hn. rewrite serve_GET_clients, serve_GET_invoices. unfold validate_limit.
  destruct (n <? 1) eqn:E1.
  - eexists. by repeat split.
  - destruct (200 <? n) eqn:E2.
    + eexists. by repeat split.
    + apply Z.ltb_ge in E1, E2. lia.
Qed.

(** X14: when [get_documents] raises, GET /clients and GET /invoices are
    answered 500: the handlers catch nothing. *)
Theorem list_storage_error (n : Z) (status client_id : option str)
    (e : pyerror) (s s' : S) :
  1 <= n <= 200 ->
  (forall coll filt, get_documents coll filt n s = (Raise e, s')) ->
  serve validate_email validate_Invoice model_json_schema (GET_clients (Some n)) s
  = (Reply 500 InternalServerError, s') /\
  serve validate_email validate_Invoice model_json_schema
        (GET_invoices status client_id (Some n)) s
  = (Reply 500 InternalServerError, s').
Proof.
  intros [Hlo Hhi] Hfail. rewrite serve_GET_clients, serve_GET_invoices.
  unfold validate_limit.
  apply Z.ltb_ge in Hlo, Hhi. rewrite Hlo, Hhi.
  unfold run, list_clients, list_invoices, bind, propagate. by rewrite !Hfail.
Qed.

(** X15: when [create_document] raises, POST /clients is answered 500 and
    nothing else is asked of the store. *)
Theorem post_clients_storage_error
    (j : value) (payload : Client.t) (e : pyerror) (s s' : S) :
  validate_Client validate_email j = Return payload ->
  create_document (_collection_name Client_cls) (ClientModel payload) s = (Raise e, s') ->
  create_client payload s = (Raise (Unhandled e), s') /\
  serve validate_email validate_Invoice model_json_schema (POST_ (lit "/clients") j) s
  = (Reply 500 InternalServerError, s').
Proof.
  intros Hv Hfail. assert (Hc : create_client payload s = (Raise (Unhandled e), s')).
  { unfold create_client, bind, propagate. by rewrite Hfail. }
  split; [exact Hc|]. rewrite serve_POST_clients, Hv. unfold run. by rewrite Hc.
Qed.

(** X16: when the identifier [create_document] returns is not one [ObjectId]
    takes, the handler raises [InvalidId] after the insertion: the request
    is answered 500 although [create_document] has run. *)
Theorem post_clients_invalid_identifier
    (j : value) (payload : Client.t) (id : str) (coll : Collection) (s s1 s2 : S) :
  validate_Client validate_email j = Return payload ->
  create_document (_collection_name Client_cls) (ClientModel payload) s = (Return id, s1) ->
  db_getitem (_collection_name Client_cls) s1 = (Return coll, s2) ->
  ObjectId_new id = Raise (InvalidId id) ->
  create_client payload s = (Raise (InvalidId id), s2) /\
  serve validate_email validate_Invoice model_json_schema (POST_ (lit "/clients") j) s
  = (Reply 500 InternalServerError, s2).
Proof.
  intros Hv H1 H2 H3.
  assert (Hc : create_client payload s = (Raise (InvalidId id), s2)).
  { unfold create_client, bind, propagate, now. by rewrite H1, H2, H3. }
  split; [exact Hc|]. rewrite serve_POST_clients, Hv. unfold run. by rewrite Hc.
Qed.

(** X17: when the record fetched again is an empty dict, it counts as not
    found: the answer is 201 with [{"_id": inserted_id}]. *)
Theorem post_clients_empty_record
    (j : value) (payload : Client.t) (id : str) (o : ObjectId) (coll : Collection)
    (s s1 s2 s3 : S) :
  validate_Client validate_email j = Return payload ->
  create_document (_collection_name Client_cls) (ClientModel payload) s = (Return id, s1) ->
  db_getitem (_collection_name Client_cls) s1 = (Return coll, s2) ->
  ObjectId_new id = Return o ->
  find_one coll (by_id o) s2 = (Return (Some ∅), s3) ->
  serve validate_email validate_Invoice model_json_schema (POST_ (lit "/clients") j) s
  = (Reply 201 (JDoc {[ lit "_id" := VStr id ]}), s3).
Proof.
  intros Hv H1 H2 H3 H4. rewrite serve_POST_clients, Hv. unfold run.
  rewrite create_client_unfold.
  by rewrite (insert_and_fetch_found Client_cls (ClientModel payload)
                s id s1 coll s2 o (Some ∅) s3).
Qed.




End Requests.

(** ** The reference check of [create_invoice] *)

Section Reference.
Context {S : Type} {R : Runtime S}.
Variable validate_email : str -> option str.
Variable validate_Invoice : value -> result (list verr) Invoice.t.
Variable model_json_schema : model_cls -> value.

(** X19: on any store, when [client_id] is an identifier and the lookup in
    the clients finds nothing, POST /invoices is answered 400 "Invalid
    client_id" and [create_document] is not called: the state is the one the
    lookup left. *)
Theorem post_invoices_reference_not_found
    (j : value) (payload : Invoice.t) (cid : str) (o : ObjectId) (coll : Collection)
    (s s1 s2 : S) :
  validate_Invoice j = Return payload ->
  Invoice.client_id payload = Some cid ->
  ObjectId_new cid = Return o ->
  db_getitem (_collection_name Client_cls) s = (Return coll, s1) ->
  find_one coll (by_id o) s1 = (Return None, s2) ->
  serve validate_email validate_Invoice model_json_schema (POST_ (lit "/invoices") j) s
  = (Reply 400 (Detail (lit "Invalid client_id")), s2).
Proof.
  intros Hv Hcid Ho Hg Hf. rewrite serve_POST_invoices, Hv.
  unfold run, create_invoice. rewrite Hcid.
  pose proof (ObjectId_new_length _ _ Ho) as Hlen.
  destruct cid as [|c cid]; [done|]. cbn [str_truthy].
  apply Nat.eqb_eq in Hlen. rewrite Hlen.
  unfold bind, propagate, now, raise. by rewrite Hg, Ho, Hf.
Qed.

(** X20: when the lookup of the client raises, POST /invoices is answered
    500 and [create_document] is not called. *)
Theorem post_invoices_lookup_error
    (j : value) (payload : Invoice.t) (cid : str) (o : ObjectId) (coll : Collection)
    (e : pyerror) (s s1 s2 : S) :
  validate_Invoice j = Return payload ->
  Invoice.client_id payload = Some cid ->
  ObjectId_new cid = Return o ->
  db_getitem (_collection_name Client_cls) s = (Return coll, s1) ->
  find_one coll (by_id o) s1 = (Raise e, s2) ->
  create_invoice payload s = (Raise (Unhandled e), s2) /\
  serve validate_email validate_Invoice model_json_schema (POST_ (lit "/invoices") j) s
  = (Reply 500 InternalServerError, s2).
Proof.
  intros Hv Hcid Ho Hg Hf.
  assert (Hc : create_invoice payload s = (Raise (Unhandled e), s2)).
  { unfold create_invoice. rewrite Hcid.
    pose proof (ObjectId_new_length _ _ Ho) as Hlen.
    destruct cid as [|c cid]; [done|]. cbn [str_truthy].
    apply Nat.eqb_eq in Hlen. rewrite Hlen.
    unfold bind, propagate, now, raise. by rewrite Hg, Ho, Hf. }
  split; [exact Hc|]. rewrite serve_POST_invoices, Hv. unfold run. by rewrite Hc.
Qed.

(** Past the check, [create_invoice] is the insertion and the fetch. *)
Lemma create_invoice_checked
    (payload : Invoice.t) (cid : str) (o : ObjectId) (coll : Collection)
    (client : doc) (s s1 s2 : S) :
  Invoice.client_id payload = Some cid ->
  ObjectId_new cid = Return o ->
  db_getitem (_collection_name Client_cls) s = (Return coll, s1) ->
  find_one coll (by_id o) s1 = (Return (Some client), s2) ->
  create_invoice payload s = insert_and_fetch Invoice_cls (InvoiceModel payload) s2.
Proof.
  intros Hcid Ho Hg Hf. unfold create_invoice. rewrite Hcid.
  pose proof (ObjectId_new_length _ _ Ho) as Hlen.
  destruct cid as [|c cid]; [done|]. cbn [str_truthy].
  apply Nat.eqb_eq in Hlen. rewrite Hlen.
  unfold insert_and_fetch, bind, propagate, now, ret. by rewrite Hg, Ho, Hf.
Qed.

(** X21: when the lookup finds a record, whatever it holds (the test is
    [client is None], so even an empty dict passes), the invoice is inserted
    and fetched as if no reference had been given. *)
Theorem post_invoices_reference_found
    (j : value) (payload : Invoice.t) (cid : str) (o : ObjectId) (coll : Collection)
    (client : doc) (s s1 s2 : S) :
  validate_Invoice j = Return payload ->
  Invoice.client_id payload = Some cid ->
  ObjectId_new cid = Return o ->
  db_getitem (_collection_name Client_cls) s = (Return coll, s1) ->
  find_one coll (by_id o) s1 = (Return (Some client), s2) ->
  create_invoice payload s = insert_and_fetch Invoice_cls (InvoiceModel payload) s2 /\
  serve validate_email validate_Invoice model_json_schema (POST_ (lit "/invoices") j) s
  = run 201 JDoc (insert_and_fetch Invoice_cls (InvoiceModel payload)) s2.
Proof.
  intros Hv Hcid Ho Hg Hf.
  pose proof (create_invoice_checked payload cid o coll client s s1 s2 Hcid Ho Hg Hf)
    as Hc.
  split; [exact Hc|]. rewrite serve_POST_invoices, Hv. unfold run. by rewrite Hc.
Qed.
End Reference.

(** A POST /clients request without a body. *)
Lemma post_clients_rejected_unchanged_witness :
  (@None value = None \/
   exists j, None = Some j /\ ~ exists p, validate_Client any_email j = Return p) /\
  exists errors,
    serve any_email (accept_as (invoice_for None)) no_schema
          {| req_method := POST; req_path := lit "/clients"; req_limit := None;
             req_status := None; req_client_id := None; req_body := None |}
          fresh_world
    = (Reply 422 (ValidationErrors errors), fresh_world) /\
    errors <> [].
Proof.
  assert (H1 : @None value = None \/
               exists j, None = Some j
                         /\ ~ exists p, validate_Client any_email j = Return p)
    by (left; reflexivity).
  split; [exact H1|].
  exact (post_clients_rejected_unchanged any_email (accept_as (invoice_for None))
           no_schema None fresh_world H1).
Defined.

(** The limit 0 on both listings. *)
Lemma list_limit_out_of_range_witness :
  (0 < 1 \/ 200 < 0) /\
  exists e,
    loc e = lit "limit" /\
    serve any_email (accept_as (invoice_for None)) no_schema
          (GET_clients (Some 0)) two_invoices
    = (Reply 422 (ValidationErrors [e]), two_invoices) /\
    serve any_email (accept_as (invoice_for None)) no_schema
          (GET_invoices (Some (lit "draft")) None (Some 0)) two_invoices
    = (Reply 422 (ValidationErrors [e]), two_invoices).
Proof.
  assert (H1 : 0 < 1 \/ 200 < 0) by (left; lia).
  split; [exact H1|].
  exact (list_limit_out_of_range any_email (accept_as (invoice_for None)) no_schema
           0 (Some (lit "draft")) None two_invoices H1).
Defined.

(** The listings without a connection. *)
Lemma list_storage_error_witness :
  1 <= 50 <= 200 /\
  (forall coll filt, get_documents coll filt 50 no_db = (Raise not_available, no_db)) /\
  serve any_email (accept_as (invoice_for None)) no_schema (GET_clients (Some 50)) no_db
  = (Reply 500 InternalServerError, no_db).
Proof.
  assert (H1 : 1 <= 50 <= 200) by lia.
  assert (H2 : forall coll filt,
             get_documents coll filt 50 no_db = (Raise not_available, no_db))
    by (intros coll filt; reflexivity).
  refine (conj H1 (conj H2 _)).
  exact (proj1 (list_storage_error any_email (accept_as (invoice_for None)) no_schema
                  50 None None not_available no_db no_db H1 H2)).
Defined.

(** POST /clients without a connection. *)
Lemma post_clients_storage_error_witness :
  validate_Client any_email acme_body = Return acme /\
  create_document (_collection_name Client_cls) (ClientModel acme) no_db
  = (Raise not_available, no_db) /\
  serve any_email (accept_as (invoice_for None)) no_schema
        (POST_ (lit "/clients") acme_body) no_db
  = (Reply 500 InternalServerError, no_db).
Proof.
  assert (H1 : validate_Client any_email acme_body = Return acme)
    by (vm_compute; reflexivity).
  assert (H2 : create_document (_collection_name Client_cls) (ClientModel acme) no_db
               = (Raise not_available, no_db)) by reflexivity.
  refine (conj H1 (conj H2 _)).
  exact (proj2 (post_clients_storage_error any_email (accept_as (invoice_for None))
                  no_schema acme_body acme not_available no_db no_db H1 H2)).
Defined.

(** POST /clients on a store whose identifier is "abc". *)
Lemma post_clients_invalid_identifier_witness :
  validate_Client any_email acme_body = Return acme /\
  @create_document unit short_ids (_collection_name Client_cls) (ClientModel acme) tt
  = (Return (lit "abc"), tt) /\
  @db_getitem unit short_ids (_collection_name Client_cls) tt = (Return tt, tt) /\
  ObjectId_new (lit "abc") = Raise (InvalidId (lit "abc")) /\
  @serve unit short_ids any_email (accept_as (invoice_for None)) no_schema
         (POST_ (lit "/clients") acme_body) tt
  = (Reply 500 InternalServerError, tt).
Proof.
  assert (H1 : validate_Client any_email acme_body = Return acme)
    by (vm_compute; reflexivity).
  assert (H2 : @create_document unit short_ids (_collection_name Client_cls)
                 (ClientModel acme) tt = (Return (lit "abc"), tt)) by reflexivity.
  assert (H3 : @db_getitem unit short_ids (_collection_name Client_cls) tt
               = (Return tt, tt)) by reflexivity.
  assert (H4 : ObjectId_new (lit "abc") = Raise (InvalidId (lit "abc")))
    by reflexivity.
  refine (conj H1 (conj H2 (conj H3 (conj H4 _)))).
  exact (proj2 (@post_clients_invalid_identifier unit short_ids any_email
                  (accept_as (invoice_for None)) no_schema acme_body acme
                  (lit "abc") tt tt tt tt H1 H2 H3 H4)).
Defined.

(** POST /clients on a store that finds an empty record. *)
Lemma post_clients_empty_record_witness :
  validate_Client any_email acme_body = Return acme /\
  @create_document unit empty_records (_collection_name Client_cls) (ClientModel acme) tt
  = (Return sample_id, tt) /\
  @db_getitem unit empty_records (_collection_name Client_cls) tt = (Return tt, tt) /\
  ObjectId_new sample_id = Return sample_oid /\
  @find_one unit empty_records tt (by_id sample_oid) tt = (Return (Some ∅), tt) /\
  @serve unit empty_records any_email (accept_as (invoice_for None)) no_schema
         (POST_ (lit "/clients") acme_body) tt
  = (Reply 201 (JDoc {[ lit "_id" := VStr sample_id ]}), tt).
Proof.
  assert (H1 : validate_Client any_email acme_body = Return acme)
    by (vm_compute; reflexivity).
  assert (H2 : @create_document unit empty_records (_collection_name Client_cls)
                 (ClientModel acme) tt = (Return sample_id, tt)) by reflexivity.
  assert (H3 : @db_getitem unit empty_records (_collection_name Client_cls) tt
               = (Return tt, tt)) by reflexivity.
  assert (H4 : ObjectId_new sample_id = Return sample_oid) by (vm_compute; reflexivity).
  assert (H5 : @find_one unit empty_records tt (by_id sample_oid) tt
               = (Return (Some ∅), tt)) by reflexivity.
  refine (conj H1 (conj H2 (conj H3 (conj H4 (conj H5 _))))).
  exact (@post_clients_empty_record unit empty_records any_email
           (accept_as (invoice_for None)) no_schema acme_body acme
           sample_id sample_oid tt tt tt tt tt H1 H2 H3 H4 H5).
Defined.

(** An unknown identifier on the store that finds nothing. *)
Lemma post_invoices_reference_not_found_witness :
  accept_as (invoice_for (Some sample_id)) (invoice_body (Some sample_id))
  = Return (invoice_for (Some sample_id)) /\
  Invoice.client_id (invoice_for (Some sample_id)) = Some sample_id /\
  ObjectId_new sample_id = Return sample_oid /\
  @db_getitem unit forgetful (_collection_name Client_cls) tt = (Return tt, tt) /\
  @find_one unit forgetful tt (by_id sample_oid) tt = (Return None, tt) /\
  @serve unit forgetful any_email (accept_as (invoice_for (Some sample_id))) no_schema
         (POST_ (lit "/invoices") (invoice_body (Some sample_id))) tt
  = (Reply 400 (Detail (lit "Invalid client_id")), tt).
Proof.
  assert (H1 : accept_as (invoice_for (Some sample_id)) (invoice_body (Some sample_id))
               = Return (invoice_for (Some sample_id))) by reflexivity.
  assert (H2 : Invoice.client_id (invoice_for (Some sample_id)) = Some sample_id)
    by reflexivity.
  assert (H3 : ObjectId_new sample_id = Return sample_oid) by (vm_compute; reflexivity).
  assert (H4 : @db_getitem unit forgetful (_collection_name Client_cls) tt
               = (Return tt, tt)) by reflexivity.
  assert (H5 : @find_one unit forgetful tt (by_id sample_oid) tt = (Return None, tt))
    by reflexivity.
  refine (conj H1 (conj H2 (conj H3 (conj H4 (conj H5 _))))).
  exact (@post_invoices_reference_not_found unit forgetful any_email
           (accept_as (invoice_for (Some sample_id))) no_schema
           (invoice_body (Some sample_id)) (invoice_for (Some sample_id))
           sample_id sample_oid tt tt tt tt H1 H2 H3 H4 H5).
Defined.

(** A reference on a connection that refuses every round trip. *)
Lemma post_invoices_lookup_error_witness :
  accept_as (invoice_for (Some sample_id)) (invoice_body (Some sample_id))
  = Return (invoice_for (Some sample_id)) /\
  Invoice.client_id (invoice_for (Some sample_id)) = Some sample_id /\
  ObjectId_new sample_id = Return sample_oid /\
  db_getitem (_collection_name Client_cls) broken_world
  = (Return (lit "client"), broken_world) /\
  @find_one World mongo_runtime (lit "client") (by_id sample_oid) broken_world
  = (Raise timeout_error, broken_world) /\
  serve any_email (accept_as (invoice_for (Some sample_id))) no_schema
        (POST_ (lit "/invoices") (invoice_body (Some sample_id))) broken_world
  = (Reply 500 InternalServerError, broken_world).
Proof.
  assert (H1 : accept_as (invoice_for (Some sample_id)) (invoice_body (Some sample_id))
               = Return (invoice_for (Some sample_id))) by reflexivity.
  assert (H2 : Invoice.client_id (invoice_for (Some sample_id)) = Some sample_id)
    by reflexivity.
  assert (H3 : ObjectId_new sample_id = Return sample_oid) by (vm_compute; reflexivity).
  assert (H4 : db_getitem (_collection_name Client_cls) broken_world
               = (Return (lit "client"), broken_world)) by reflexivity.
  assert (H5 : @find_one World mongo_runtime (lit "client") (by_id sample_oid)
                 broken_world
               = (Raise timeout_error, broken_world)) by reflexivity.
  refine (conj H1 (conj H2 (conj H3 (conj H4 (conj H5 _))))).
  exact (proj2 (@post_invoices_lookup_error World mongo_runtime any_email
                  (accept_as (invoice_for (Some sample_id))) no_schema
                  (invoice_body (Some sample_id)) (invoice_for (Some sample_id))
                  sample_id sample_oid (lit "client") timeout_error
                  broken_world broken_world broken_world H1 H2 H3 H4 H5)).
Defined.

(** A reference on the store that finds an empty record: the invoice goes in. *)
Lemma post_invoices_reference_found_witness :
  accept_as (invoice_for (Some sample_id)) (invoice_body (Some sample_id))
  = Return (invoice_for (Some sample_id)) /\
  Invoice.client_id (invoice_for (Some sample_id)) = Some sample_id /\
  ObjectId_new sample_id = Return sample_oid /\
  @db_getitem unit empty_records (_collection_name Client_cls) tt = (Return tt, tt) /\
  @find_one unit empty_records tt (by_id sample_oid) tt = (Return (Some ∅), tt) /\
  @serve unit empty_records any_email (accept_as (invoice_for (Some sample_id)))
         no_schema (POST_ (lit "/invoices") (invoice_body (Some sample_id))) tt
  = (Reply 201 (JDoc {[ lit "_id" := VStr sample_id ]}), tt).
Proof.
  assert (H1 : accept_as (invoice_for (Some sample_id)) (invoice_body (Some sample_id))
               = Return (invoice_for (Some sample_id))) by reflexivity.
  assert (H2 : Invoice.client_id (invoice_for (Some sample_id)) = Some sample_id)
    by reflexivity.
  assert (H3 : ObjectId_new sample_id = Return sample_oid) by (vm_compute; reflexivity).
  assert (H4 : @db_getitem unit empty_records (_collection_name Client_cls) tt
               = (Return tt, tt)) by reflexivity.
  assert (H5 : @find_one unit empty_records tt (by_id sample_oid) tt
               = (Return (Some ∅), tt)) by reflexivity.
  refine (conj H1 (conj H2 (conj H3 (conj H4 (conj H5 _))))).
  rewrite (proj2 (@post_invoices_reference_found unit empty_records any_email
                    (accept_as (invoice_for (Some sample_id))) no_schema
                    (invoice_body (Some sample_id)) (invoice_for (Some sample_id))
                    sample_id sample_oid tt ∅ tt tt tt H1 H2 H3 H4 H5)).
  vm_compute. reflexivity.
Defined.

(** ** Requests in sequence, on the store written from the specification *)






Section Sequences.
Variable validate_email : str -> option str.
Variable validate_Invoice : value -> result (list verr) Invoice.t.
Variable model_json_schema : model_cls -> value.





End Sequences.






(** ** Serialization, routing and names *)

Lemma json_safe_idempotent (v : value) : json_safe (json_safe v) = json_safe v.
Proof. by destruct v. Qed.

(** X27: what [_serialize_doc] returns holds no [ObjectId] and no
    [datetime] as the value of a field, and serializing it again changes
    nothing. *)
Theorem serialize_doc_idempotent (d : doc) :
  _serialize_doc (_serialize_doc d) = _serialize_doc d /\
  forall k v, _serialize_doc d !! k = Some v ->
              (forall o, v <> VObjectId o) /\ (forall t, v <> VDatetime t).
Proof.
  split.
  - apply map_eq. intros k. rewrite !_serialize_doc_lookup.
    destruct (d !! k) as [v|]; [|done]. simpl. by rewrite json_safe_idempotent.
  - intros k v. rewrite _serialize_doc_lookup.
    destruct (d !! k) as [v0|]; [|done]. simpl. intros [= <-].
    by destruct v0.
Qed.

Section Routing.
Context {S : Type} {R : Runtime S}.
Variable validate_email : str -> option str.
Variable validate_Invoice : value -> result (list verr) Invoice.t.
Variable model_json_schema : model_cls -> value.


(** X29: a POST to a path that is routed for GET only is answered 405
    "Method Not Allowed"; no handler runs and the state is unchanged. *)
Theorem post_to_get_only_path (r : request) (s : S) :
  req_method r = POST ->
  req_path r ∈ get_only_paths ->
  serve validate_email validate_Invoice model_json_schema r s
  = (Reply 405 (Detail (lit "Method Not Allowed")), s).
Proof.
  intros Hm Hp. unfold serve. rewrite Hm. unfold get_only_paths in Hp.
  repeat (apply elem_of_cons in Hp as [-> | Hp]); try by inversion Hp.
  all: reflexivity.
Qed.
End Routing.

(** X30: a collection is named after its model class in lower case: the
    name has the length of the class name and no capital letter, "client"
    for [Client] and "invoice" for [Invoice], so the two kinds of records
    never share a collection. *)
Theorem collection_names (cls : model_cls) :
  length (_collection_name cls) = length (__name__ cls) /\
  forallb (fun c => negb (is_upper c)) (_collection_name cls) = true /\
  lower (_collection_name cls) = _collection_name cls /\
  _collection_name Client_cls = lit "client" /\
  _collection_name Invoice_cls = lit "invoice" /\
  _collection_name Client_cls <> _collection_name Invoice_cls.
Proof.
  repeat split; try (destruct cls; vm_compute; reflexivity).
  vm_compute. congruence.
Qed.


(** POST /api/health: the path is routed for GET only. *)
Lemma post_to_get_only_path_witness :
  req_method (POST_ (lit "/api/health") VNone) = POST /\
  (req_path (POST_ (lit "/api/health") VNone) ∈ get_only_paths) /\
  serve any_email (accept_as (invoice_for None)) no_schema
        (POST_ (lit "/api/health") VNone) two_invoices
  = (Reply 405 (Detail (lit "Method Not Allowed")), two_invoices).
Proof.
  assert (H1 : req_method (POST_ (lit "/api/health") VNone) = POST) by reflexivity.
  assert (H2 : req_path (POST_ (lit "/api/health") VNone) ∈ get_only_paths)
    by (apply list_elem_of_further, list_elem_of_here).
  refine (conj H1 (conj H2 _)).
  exact (post_to_get_only_path any_email (accept_as (invoice_for None)) no_schema
           (POST_ (lit "/api/health") VNone) two_invoices H1 H2).
Defined.
